(** * jira-version-action: the version workflow of [src/index.ts]

    A shallow embedding of the action's entry point [run] and of its helpers
    [getProjectVersions], [findVersion] and [postWithRetry], followed by the
    properties of the check-then-create flow, of the retry loop and of the
    classification of the final response.

    The program talks to three collaborators: the JavaScript engine
    (JSON.parse, JSON.stringify, string conversion), the Actions toolkit
    ([core.getInput], [core.info], [core.setOutput], ...) and the HTTP
    client.  The engine's text-producing builtins are an interface
    ([Engine]); the toolkit and the network are a [World] that answers every
    call, and every call the program makes is recorded, in order, in a
    trace of [event]s.

    Conventions.  A string is the sequence of its UTF-8 bytes.  A status
    code, a counter and a delay are integers.  The sinks of the toolkit
    ([core.info], [core.setOutput], [core.setFailed], ...) always return.
    The answers of the network are given in the order of the calls and do
    not depend on what is sent.  A run fails when it calls
    [core.setFailed]. *)

From Stdlib Require Import String Ascii List ZArith NArith Bool Arith Lia.
From Stdlib Require Import PrimFloat DecimalString.
From Stdlib Require Uint63 FloatOps SpecFloat.
From Equations Require Import Equations.
Import ListNotations.

Open Scope list_scope.
Open Scope string_scope.

(** ** JavaScript values *)

#[local] Set Warnings "-register-all".

(** What JSON.parse can return.  An object keeps its members as an
    association list in the order they were written; a key written twice
    is overridden by its later occurrence (see [own_property]). *)
Inductive json : Type :=
| JNull
| JBool (b : bool)
| JNumber (x : float)
| JString (s : string)
| JArray (items : list json)
| JObject (members : list (string * json)).

(** A JavaScript value of this program: a parsed JSON value, or
    [undefined] (here [None]). *)
Definition value : Type := option json.

(** The TypeErrors the engine can raise in this program. *)
Inductive type_error : Type :=
| ReadOfNull (property : string)    (* null.property *)
| NotAFunction (callee : string)    (* callee(...) where callee is no function *)
| NoPrimitive.                      (* an object without usable toString/valueOf *)

(** Thrown values.  All of them are Error objects; [TypeError]s are made
    by the engine, which also words their message. *)
Inductive exn : Type :=
| Error (message : string)
| SyntaxError (message : string)
| TypeError (why : type_error).

(** The builtins whose output text is fixed by the engine, not by the
    program. *)
Record Engine : Type := {
  (* JSON.parse(text): the value, or the message of the SyntaxError *)
  JSON_parse : string -> string + json;
  (* JSON.stringify(v, null, indent) *)
  JSON_stringify : json -> nat -> string;
  (* Number.prototype.toString *)
  Number_toString : float -> string;
  (* the message of an engine-made TypeError *)
  type_error_message : type_error -> string
}.

(** [s1 || s2] on strings: the empty string is falsy. *)
Definition or_string (s1 s2 : string) : string :=
  if String.eqb s1 "" then s2 else s1.

(** [s] without the prefix [p], when it starts with it. *)
Fixpoint strip (p s : string) : option string :=
  match p, s with
  | EmptyString, _ => Some s
  | String a p', String b s' => if Ascii.eqb a b then strip p' s' else None
  | String _ _, EmptyString => None
  end.

(** [needle] occurs in [text]. *)
Fixpoint occurs (needle text : string) : bool :=
  match strip needle text with
  | Some _ => true
  | None =>
      match text with
      | EmptyString => false
      | String _ rest => occurs needle rest
      end
  end.

(** Decimal rendering of an integer-valued number (a status code, an
    attempt count, a delay), as a template literal shows it below 10^21. *)
Definition string_of_Z (z : Z) : string :=
  NilZero.string_of_int (Z.to_int z).

(** The own property [key] of an object, [None] when it has none. *)
Fixpoint own_property (key : string) (members : list (string * json)) : value :=
  match members with
  | [] => None
  | (k, v) :: rest =>
      match own_property key rest with
      | Some w => Some w
      | None => if String.eqb k key then Some v else None
      end
  end.

(** The property read [v.key], for a [key] that no builtin prototype
    defines ([id], [self], [name]): reading from [null] throws, an object
    answers with its own property, every other value with [undefined]. *)
Definition get (v : json) (key : string) : exn + value :=
  match v with
  | JNull => inl (TypeError (ReadOfNull key))
  | JObject members => inr (own_property key members)
  | _ => inr None
  end.

(** [x === s] for a string [s]: no coercion, so only a string equals it. *)
Definition strict_eq_string (x : value) (s : string) : bool :=
  match x with
  | Some (JString t) => String.eqb t s
  | _ => false
  end.

(** ToBoolean. *)
Definition truthy (v : json) : bool :=
  match v with
  | JNull => false
  | JBool b => b
  | JNumber x => negb (PrimFloat.eqb x zero || PrimFloat.is_nan x)
  | JString s => negb (String.eqb s "")
  | JArray _ | JObject _ => true
  end.

Section EngineOps.

Variable E : Engine.

Definition message (e : exn) : string :=
  match e with
  | Error m | SyntaxError m => m
  | TypeError t => type_error_message E t
  end.

(** ToString, as a template literal applies it.  A plain object answers
    through Object.prototype.toString unless it has an own member named
    [toString]: a parsed member is never callable, and the inherited
    valueOf returns the object itself, so no primitive is found and the
    engine throws.  An array is joined with commas, [null] elements
    rendering as the empty string. *)
Fixpoint ToString (v : json) : exn + string :=
  match v with
  | JNull => inr "null"
  | JBool true => inr "true"
  | JBool false => inr "false"
  | JNumber x => inr (Number_toString E x)
  | JString s => inr s
  | JArray items =>
      let element (x : json) : exn + string :=
        match x with JNull => inr "" | _ => ToString x end in
      (fix join (l : list json) : exn + string :=
         match l with
         | [] => inr ""
         | [x] => element x
         | x :: rest =>
             match element x with
             | inl e => inl e
             | inr s =>
                 match join rest with
                 | inl e => inl e
                 | inr t => inr (s ++ "," ++ t)
                 end
             end
         end) items
  | JObject members =>
      match own_property "toString" members with
      | Some _ => inl (TypeError NoPrimitive)
      | None => inr "[object Object]"
      end
  end.

(** [`${x}`] for a possibly undefined [x]. *)
Definition template (x : value) : exn + string :=
  match x with
  | None => inr "undefined"
  | Some v => ToString v
  end.

End EngineOps.

(** ** Base64, as [Buffer.from(text).toString('base64')] *)

Definition base64_alphabet : string :=
  "ABCDEFGHIJKLMNOPQRSTUVWXYZabcdefghijklmnopqrstuvwxyz0123456789+/".

Definition base64_digit (n : N) : ascii :=
  match String.get (N.to_nat n) base64_alphabet with
  | Some c => c
  | None => "="%char
  end.

Fixpoint base64 (s : string) : string :=
  match s with
  | EmptyString => EmptyString
  | String a EmptyString =>
      let x := N_of_ascii a in
      String (base64_digit (N.shiftr x 2))
        (String (base64_digit (N.shiftl (N.land x 3) 4)) "==")
  | String a (String b EmptyString) =>
      let x := N_of_ascii a in
      let y := N_of_ascii b in
      String (base64_digit (N.shiftr x 2))
        (String (base64_digit (N.lor (N.shiftl (N.land x 3) 4) (N.shiftr y 4)))
           (String (base64_digit (N.shiftl (N.land y 15) 2)) "="))
  | String a (String b (String c rest)) =>
      let x := N_of_ascii a in
      let y := N_of_ascii b in
      let z := N_of_ascii c in
      String (base64_digit (N.shiftr x 2))
        (String (base64_digit (N.lor (N.shiftl (N.land x 3) 4) (N.shiftr y 4)))
           (String (base64_digit (N.lor (N.shiftl (N.land y 15) 2) (N.shiftr z 6)))
              (String (base64_digit (N.land z 63)) (base64 rest))))
  end.

(** ** The toolkit, the network and the trace *)

Definition headers : Type := list (string * string).

(** Every call the program makes on a collaborator, in program order. *)
Inductive event : Type :=
| SetSecret (secret : string)                      (* core.setSecret *)
| Debug (text : string)                            (* core.debug *)
| Info (text : string)                             (* core.info *)
| Warning (text : string)                          (* core.warning *)
| ErrorLog (text : string)                         (* core.error *)
| SetFailed (text : string)                        (* core.setFailed *)
| SetOutput (name : string) (v : value)            (* core.setOutput *)
| HttpGet (url : string) (h : headers)             (* client.get *)
| HttpPost (url : string) (data : string) (h : headers)   (* client.post *)
| SetTimeout (ms : Z).                             (* the awaited timer *)

(** An HTTP response: [message.statusCode], which the client types as
    possibly undefined, and the outcome of [readBody()]. *)
Record response : Type := {
  statusCode : option Z;
  readBody : exn + string
}.

(** What the collaborators answer.  A getter or an HTTP call either throws
    ([inl]) or returns; the [n]-th POST of a run ([n] counted from 0) is
    answered by [http_post n]. *)
Record World : Type := {
  getInput : string -> bool -> exn + string;       (* name, options.required *)
  getBooleanInput : string -> bool -> exn + bool;
  http_get : exn + response;
  http_post : nat -> exn + response
}.

(** The state a run threads: how many POSTs were sent, and the trace. *)
Record state : Type := {
  posts : nat;
  trace : list event
}.

Definition initial : state := {| posts := 0; trace := [] |}.

Definition emit (e : event) (st : state) : state :=
  {| posts := posts st; trace := trace st ++ [e] |}.

(** Computations that may throw and that keep the state when they do. *)
Definition M (A : Type) : Type := state -> (exn + A) * state.

Definition ret {A : Type} (a : A) : M A := fun st => (inr a, st).

Definition throw {A : Type} (e : exn) : M A := fun st => (inl e, st).

Definition bind {A B : Type} (c : M A) (k : A -> M B) : M B :=
  fun st =>
    match c st with
    | (inl e, st') => (inl e, st')
    | (inr a, st') => k a st'
    end.

Definition try_catch {A : Type} (c : M A) (handler : exn -> M A) : M A :=
  fun st =>
    match c st with
    | (inl e, st') => handler e st'
    | (inr a, st') => (inr a, st')
    end.

(** A pure expression that may throw. *)
Definition lift {A : Type} (r : exn + A) : M A := fun st => (r, st).

Definition call (e : event) : M unit := fun st => (inr tt, emit e st).

Notation "x <- c ;; k" := (bind c (fun x => k))
  (at level 61, c at next level, right associativity).
Notation "c ;;; k" := (bind c (fun _ => k))
  (at level 61, right associativity).

(** ** The program *)

(** The double quote, which the program's messages put around names. *)
Definition dq : string := String (ascii_of_nat 34) EmptyString.

Definition USER_AGENT : string := "jira-version-action".

(** The eight inputs, as [run] holds them after reading. *)
Record inputs : Type := {
  jiraBaseUrl : string;
  jiraProjectKey : string;
  jiraUserEmail : string;
  jiraApiToken : string;
  versionName : string;
  versionDescription : string;
  released : bool;
  checkIfExists : bool
}.

(** What [postWithRetry] returns. *)
Record post_result : Type := {
  status : Z;
  body : string
}.

(** [resp.message.statusCode ?? 0] *)
Definition status_of (resp : response) : Z :=
  match statusCode resp with
  | Some code => code
  | None => 0%Z
  end.

(** [found || null]: [None] is [null] in the result. *)
Definition or_null (found : value) : option json :=
  match found with
  | Some v => if truthy v then Some v else None
  | None => None
  end.

(** Array.prototype.find over the elements, with a callback that may
    throw: the first element the callback accepts, else [undefined]. *)
Fixpoint Array_find (callback : json -> exn + bool) (items : list json)
  : exn + value :=
  match items with
  | [] => inr None
  | v :: rest =>
      match callback v with
      | inl e => inl e
      | inr true => inr (Some v)
      | inr false => Array_find callback rest
      end
  end.

(** [versions.find(callback)] on whatever JSON.parse returned: only an
    array has the method. *)
Definition find (versions : json) (callback : json -> exn + bool)
  : exn + value :=
  match versions with
  | JArray items => Array_find callback items
  | JNull => inl (TypeError (ReadOfNull "find"))
  | _ => inl (TypeError (NotAFunction "versions.find"))
  end.

(** A value together with the equation that says where it came from, for
    the recursion of [retry_loop]. *)
Definition inspect {A : Type} (a : A) : {b : A | a = b} :=
  exist _ a eq_refl.

(** The outcome of one pass through the body of [while (true)]. *)
Inductive loop_step : Type :=
| Continue (st : state)
| Return (r : (exn + post_result) * state).

Section Program.

Variable E : Engine.
Variable W : World.

Definition core_getInput (name : string) (required : bool) : M string :=
  lift (getInput W name required).

Definition core_getBooleanInput (name : string) (required : bool) : M bool :=
  lift (getBooleanInput W name required).

Definition client_get (url : string) (h : headers) : M response :=
  fun st => (http_get W, emit (HttpGet url h) st).

Definition client_post (url data : string) (h : headers) : M response :=
  fun st =>
    (http_post W (posts st),
     {| posts := S (posts st);
        trace := trace st ++ [HttpPost url data h] |}).

Definition JSON_parse_ (text : string) : exn + json :=
  match JSON_parse E text with
  | inl m => inl (SyntaxError m)
  | inr v => inr v
  end.

(** index.ts, lines 20-31 *)
Definition getProjectVersions (baseUrl projectKey : string) (h : headers)
  : M json :=
  let url := baseUrl ++ "/rest/api/3/project/" ++ projectKey ++ "/versions" in
  resp <- client_get url h ;;
  body <- lift (readBody resp) ;;
  let status := status_of resp in
  if negb (status =? 200)%Z then
    throw (Error ("Failed to fetch versions: HTTP " ++ string_of_Z status))
  else
    lift (JSON_parse_ body).

(** index.ts, lines 33-36 *)
Definition findVersion (baseUrl projectKey versionName : string) (h : headers)
  : M (option json) :=
  versions <- getProjectVersions baseUrl projectKey h ;;
  found <- lift (find versions (fun v =>
             match get v "name" with
             | inl e => inl e
             | inr name => inr (strict_eq_string name versionName)
             end)) ;;
  ret (or_null found).

(** index.ts, lines 89-101: the loop body, entered with the counter
    already incremented.  The delay is an integer here and a double in
    the source; the two agree, in value, as an argument of the timer and
    in the digits the warning prints, as long as [attempt <= 21], where
    the delay stays below 2^31 milliseconds.  A run has [attempt <= 3]. *)
Definition iteration (url bodyStr : string) (h : headers)
  (maxRetries attempt : nat) (st : state) : loop_step :=
  match client_post url bodyStr h st with
  | (inl e, st1) => Return (inl e, st1)
  | (inr resp, st1) =>
      let status := status_of resp in
      match readBody resp with
      | inl e => Return (inl e, st1)
      | inr respBody =>
          if (status =? 429)%Z && (attempt <=? maxRetries)%nat then
            let waitMs := (2 ^ Z.of_nat attempt * 1000)%Z in
            let st2 :=
              emit (Warning ("Rate limit exceeded, retrying in "
                             ++ string_of_Z waitMs ++ "ms ("
                             ++ string_of_Z (Z.of_nat attempt) ++ "/"
                             ++ string_of_Z (Z.of_nat maxRetries) ++ ")")) st1 in
            Continue (emit (SetTimeout waitMs) st2)
          else
            Return (inr {| status := status; body := respBody |}, st1)
      end
  end.

(** index.ts, lines 87-102: [while (true)] around the body, [attempt]
    being the counter before [attempt++]. *)
Equations? retry_loop (url bodyStr : string) (h : headers)
  (maxRetries attempt : nat) (st : state)
  : (exn + post_result) * state by wf (maxRetries - attempt) lt :=
  retry_loop url bodyStr h maxRetries attempt st
    with inspect (iteration url bodyStr h maxRetries (S attempt) st) := {
    | exist _ (Continue st') _ => retry_loop url bodyStr h maxRetries (S attempt) st'
    | exist _ (Return r) _ => r }.
Proof.
  (* the body only says [Continue] after checking attempt <= maxRetries *)
  unfold iteration in e.
  destruct (client_post url bodyStr h st) as [[err | resp] st1];
    [discriminate |].
  destruct (readBody resp); [discriminate |].
  destruct (Nat.leb_spec (S attempt) maxRetries) as [Hle | Hgt]; [lia |].
  rewrite andb_false_r in e. discriminate.
Qed.

(** index.ts, lines 86-103 *)
Definition postWithRetry (url bodyStr : string) (h : headers)
  (maxRetries : nat) : M post_result :=
  retry_loop url bodyStr h maxRetries 0.

(** index.ts, lines 40-47 *)
Definition read_inputs : M inputs :=
  jiraBaseUrl <- core_getInput "jira-base-url" true ;;
  jiraProjectKey <- core_getInput "jira-project-key" true ;;
  jiraUserEmail <- core_getInput "jira-user-email" true ;;
  jiraApiToken <- core_getInput "jira-api-token" true ;;
  versionName <- core_getInput "version-name" true ;;
  description <- core_getInput "version-description" false ;;
  let versionDescription := or_string description "" in
  released <- core_getBooleanInput "released" false ;;
  checkIfExists <- core_getBooleanInput "check-if-exists" false ;;
  ret {| jiraBaseUrl := jiraBaseUrl;
         jiraProjectKey := jiraProjectKey;
         jiraUserEmail := jiraUserEmail;
         jiraApiToken := jiraApiToken;
         versionName := versionName;
         versionDescription := versionDescription;
         released := released;
         checkIfExists := checkIfExists |}.

(** index.ts, lines 59-63 *)
Definition request_headers (auth : string) : headers :=
  [("Authorization", "Basic " ++ auth);
   ("Accept", "application/json");
   ("Content-Type", "application/json")].

(** index.ts, lines 66-74.  The answer is [true] when the branch ended
    in [return], [false] when control goes on to line 76. *)
Definition check_existing (i : inputs) (h : headers) : M bool :=
  if checkIfExists i then
    existingVersion <- findVersion (jiraBaseUrl i) (jiraProjectKey i)
                         (versionName i) h ;;
    match existingVersion with
    | Some v =>
        if truthy v then
          call (Info ("Version " ++ dq ++ versionName i ++ dq
                      ++ " already exists in project "
                      ++ dq ++ jiraProjectKey i ++ dq)) ;;;
          id <- lift (get v "id") ;;
          call (SetOutput "version-id" id) ;;;
          self <- lift (get v "self") ;;
          call (SetOutput "version-url" self) ;;;
          ret true
        else ret false
    | None => ret false
    end
  else ret false.

(** index.ts, lines 78-83 *)
Definition payload (i : inputs) : json :=
  JObject [("name", JString (versionName i));
           ("description", JString (versionDescription i));
           ("project", JString (jiraProjectKey i));
           ("released", JBool (released i))].

(** index.ts, lines 107-120 *)
Definition report_failure (result : post_result) : M unit :=
  call (ErrorLog "Failed to create Jira version:") ;;;
  call (ErrorLog ("- Status: HTTP " ++ string_of_Z (status result))) ;;;
  try_catch
    (parsed <- lift (JSON_parse_ (body result)) ;;
     call (ErrorLog "- Error details:") ;;;
     call (ErrorLog (JSON_stringify E parsed 2)))
    (fun _ =>
       call (ErrorLog "- Raw response:") ;;;
       call (ErrorLog (body result))) ;;;
  call (SetFailed ("Version creation failed with HTTP "
                   ++ string_of_Z (status result))).

(** index.ts, lines 122-132 *)
Definition report_created (result : post_result) : M unit :=
  match JSON_parse_ (body result) with
  | inl _ => call (SetFailed "Failed to parse Jira response as JSON.")
  | inr data =>
      name <- lift (get data "name") ;;
      shown <- lift (template E name) ;;
      call (Info ("Version " ++ dq ++ shown ++ dq ++ " created successfully")) ;;;
      id <- lift (get data "id") ;;
      call (SetOutput "version-id" id) ;;;
      self <- lift (get data "self") ;;
      call (SetOutput "version-url" self)
  end.

(** index.ts, lines 76-132 *)
Definition create (i : inputs) (url : string) (h : headers) : M unit :=
  call (Info ("Creating version " ++ dq ++ versionName i ++ dq
              ++ " in project " ++ dq ++ jiraProjectKey i ++ dq ++ "...")) ;;;
  result <- postWithRetry url (JSON_stringify E (payload i) 0) h 3 ;;
  if (status result <? 200)%Z || (status result >=? 300)%Z then
    report_failure result
  else
    report_created result.

(** index.ts, lines 49-132 *)
Definition run_with (i : inputs) : M unit :=
  let auth := base64 (jiraUserEmail i ++ ":" ++ jiraApiToken i) in
  let url := jiraBaseUrl i ++ "/rest/api/3/version" in
  call (SetSecret (jiraApiToken i)) ;;;
  call (SetSecret (jiraUserEmail i)) ;;;
  call (Debug "Secrets masked in logs") ;;;
  call (Debug ("Initializing HTTP client for " ++ jiraBaseUrl i)) ;;;
  let h := request_headers auth in
  returned <- check_existing i h ;;
  if returned then ret tt else create i url h.

(** index.ts, lines 40-132: the body of [try]. *)
Definition run_try : M unit :=
  i <- read_inputs ;;
  run_with i.

(** index.ts, lines 38-137 *)
Definition run : M unit :=
  try_catch run_try
    (fun error =>
       call (SetFailed ("Action failed with error: " ++ message E error))).

(** The trace of a whole run. *)
Definition run_trace : list event := trace (snd (run initial)).

End Program.

(** A readable response with status [code] and body [text]. *)
Definition answers (code : Z) (text : string) : exn + response :=
  inr {| statusCode := Some code; readBody := inr text |}.

(** ** An engine to run examples with

    [Plain.engine] reads and writes the JSON texts the examples use:
    [null], [true], [false], integer literals, strings without escape
    sequences, arrays and objects, with white space between tokens.  The
    wording of its TypeErrors is V8's; every SyntaxError carries one fixed
    message. *)
Module Plain.

Definition is_space (c : ascii) : bool :=
  let n := nat_of_ascii c in
  (n =? 32)%nat || (n =? 9)%nat || (n =? 10)%nat || (n =? 13)%nat.

Definition is_digit (c : ascii) : bool :=
  let n := nat_of_ascii c in (48 <=? n)%nat && (n <=? 57)%nat.

Fixpoint skip_space (s : string) : string :=
  match s with
  | String c rest => if is_space c then skip_space rest else s
  | EmptyString => s
  end.

(** The characters of a string literal up to its closing quote. *)
Fixpoint string_chars (s : string) : option (string * string) :=
  match s with
  | EmptyString => None
  | String c rest =>
      let n := nat_of_ascii c in
      if (n =? 34)%nat then Some (EmptyString, rest)
      else if (n =? 92)%nat || (n <? 32)%nat then None
      else match string_chars rest with
           | Some (t, rest') => Some (String c t, rest')
           | None => None
           end
  end.

(** The digits a text starts with, as a number. *)
Fixpoint digits (acc : Z) (s : string) : Z * string :=
  match s with
  | String c rest =>
      if is_digit c
      then digits (10 * acc + Z.of_nat (nat_of_ascii c - 48)) rest
      else (acc, s)
  | EmptyString => (acc, s)
  end.

Definition float_of_Z (z : Z) : float :=
  if (z <? 0)%Z
  then PrimFloat.opp (PrimFloat.of_uint63 (Uint63.of_Z (- z)))
  else PrimFloat.of_uint63 (Uint63.of_Z z).

Definition number (s : string) : option (json * string) :=
  let (negative, s1) :=
    match strip "-" s with Some t => (true, t) | None => (false, s) end in
  let leading_zero :=
    match strip "0" s1 with
    | Some (String d _) => is_digit d
    | _ => false
    end in
  match s1 with
  | String c _ =>
      if is_digit c && negb leading_zero then
        let (n, rest) := digits 0 s1 in
        Some (JNumber (float_of_Z (if negative then - n else n)), rest)
      else None
  | EmptyString => None
  end.

Fixpoint read (fuel : nat) (s : string) : option (json * string) :=
  match fuel with
  | O => None
  | S fuel' =>
      match skip_space s with
      | String c rest =>
          let n := nat_of_ascii c in
          if (n =? 110)%nat then
            option_map (pair JNull) (strip "ull" rest)
          else if (n =? 116)%nat then
            option_map (pair (JBool true)) (strip "rue" rest)
          else if (n =? 102)%nat then
            option_map (pair (JBool false)) (strip "alse" rest)
          else if (n =? 34)%nat then
            match string_chars rest with
            | Some (t, rest') => Some (JString t, rest')
            | None => None
            end
          else if (n =? 91)%nat then
            match strip "]" (skip_space rest) with
            | Some rest' => Some (JArray [], rest')
            | None =>
                match elements fuel' rest with
                | Some (items, rest') => Some (JArray items, rest')
                | None => None
                end
            end
          else if (n =? 123)%nat then
            match strip "}" (skip_space rest) with
            | Some rest' => Some (JObject [], rest')
            | None =>
                match members fuel' rest with
                | Some (ms, rest') => Some (JObject ms, rest')
                | None => None
                end
            end
          else number (String c rest)
      | EmptyString => None
      end
  end
with elements (fuel : nat) (s : string) : option (list json * string) :=
  match fuel with
  | O => None
  | S fuel' =>
      match read fuel' s with
      | Some (v, rest) =>
          match skip_space rest with
          | String c rest' =>
              if (nat_of_ascii c =? 93)%nat then Some ([v], rest')
              else if (nat_of_ascii c =? 44)%nat then
                match elements fuel' rest' with
                | Some (vs, rest'') => Some (v :: vs, rest'')
                | None => None
                end
              else None
          | EmptyString => None
          end
      | None => None
      end
  end
with members (fuel : nat) (s : string)
  : option (list (string * json) * string) :=
  match fuel with
  | O => None
  | S fuel' =>
      match strip dq (skip_space s) with
      | Some s1 =>
          match string_chars s1 with
          | Some (k, s2) =>
              match strip ":" (skip_space s2) with
              | Some s3 =>
                  match read fuel' s3 with
                  | Some (v, rest) =>
                      match skip_space rest with
                      | String c rest' =>
                          if (nat_of_ascii c =? 125)%nat then Some ([(k, v)], rest')
                          else if (nat_of_ascii c =? 44)%nat then
                            match members fuel' rest' with
                            | Some (ms, rest'') => Some ((k, v) :: ms, rest'')
                            | None => None
                            end
                          else None
                      | EmptyString => None
                      end
                  | None => None
                  end
              | None => None
              end
          | None => None
          end
      | None => None
      end
  end.

Definition parse (text : string) : string + json :=
  match read (2 * String.length text + 2) text with
  | Some (v, rest) =>
      match skip_space rest with
      | EmptyString => inr v
      | String _ _ => inl "Unexpected token in JSON"
      end
  | None => inl "Unexpected token in JSON"
  end.

(** Number.prototype.toString on the integers below 10^21; other
    finite numbers are not rendered by this engine. *)
Definition number_text (x : float) : string :=
  match FloatOps.Prim2SF x with
  | SpecFloat.S754_zero _ => "0"
  | SpecFloat.S754_infinity false => "Infinity"
  | SpecFloat.S754_infinity true => "-Infinity"
  | SpecFloat.S754_nan => "NaN"
  | SpecFloat.S754_finite negative m e =>
      let n := if (0 <=? e)%Z
               then Z.shiftl (Z.pos m) e
               else Z.shiftr (Z.pos m) (- e) in
      string_of_Z (if negative then - n else n)
  end.

Definition newline : string := String (ascii_of_nat 10) EmptyString.

Fixpoint spaces (n : nat) : string :=
  match n with
  | O => EmptyString
  | S n' => String " "%char (spaces n')
  end.

(** A line break followed by the indentation of [level], nothing at all
    when the output is not indented. *)
Definition break (indent level : nat) : string :=
  match indent with
  | O => EmptyString
  | S _ => newline ++ spaces (indent * level)
  end.

Definition quoted (s : string) : string := dq ++ s ++ dq.

Fixpoint write (indent level : nat) (v : json) : string :=
  match v with
  | JNull => "null"
  | JBool true => "true"
  | JBool false => "false"
  | JNumber x => number_text x
  | JString s => quoted s
  | JArray [] => "[]"
  | JArray items =>
      "[" ++ break indent (S level)
      ++ (fix join (l : list json) : string :=
            match l with
            | [] => EmptyString
            | [x] => write indent (S level) x
            | x :: rest =>
                write indent (S level) x ++ "," ++ break indent (S level)
                ++ join rest
            end) items
      ++ break indent level ++ "]"
  | JObject [] => "{}"
  | JObject ms =>
      let colon := match indent with O => ":" | S _ => ": " end in
      "{" ++ break indent (S level)
      ++ (fix join (l : list (string * json)) : string :=
            match l with
            | [] => EmptyString
            | [(k, x)] => quoted k ++ colon ++ write indent (S level) x
            | (k, x) :: rest =>
                quoted k ++ colon ++ write indent (S level) x
                ++ "," ++ break indent (S level) ++ join rest
            end) ms
      ++ break indent level ++ "}"
  end.

Definition type_error_text (t : type_error) : string :=
  match t with
  | ReadOfNull p => "Cannot read properties of null (reading '" ++ p ++ "')"
  | NotAFunction f => f ++ " is not a function"
  | NoPrimitive => "Cannot convert object to primitive value"
  end.

Definition engine : Engine :=
  {| JSON_parse := parse;
     JSON_stringify := fun v indent => write indent 0 v;
     Number_toString := number_text;
     type_error_message := type_error_text |}.

(** A toolkit that supplies the inputs [i], and a network that answers
    the listing with [listing] and the [n]-th POST with [answers n]. *)
Definition world (i : inputs) (listing : exn + response)
  (answers : nat -> exn + response) : World :=
  {| getInput := fun name _ =>
       inr (if String.eqb name "jira-base-url" then jiraBaseUrl i
            else if String.eqb name "jira-project-key" then jiraProjectKey i
            else if String.eqb name "jira-user-email" then jiraUserEmail i
            else if String.eqb name "jira-api-token" then jiraApiToken i
            else if String.eqb name "version-name" then versionName i
            else if String.eqb name "version-description" then versionDescription i
            else "");
     getBooleanInput := fun name _ =>
       inr (if String.eqb name "released" then released i
            else if String.eqb name "check-if-exists" then checkIfExists i
            else false);
     http_get := listing;
     http_post := answers |}.

(** The answers of a list, then connection faults. *)
Definition script (l : list (exn + response)) (n : nat) : exn + response :=
  nth n l (inl (Error "socket hang up")).

Definition example_inputs (check : bool) : inputs :=
  {| jiraBaseUrl := "https://x.atlassian.net";
     jiraProjectKey := "MYPROJ";
     jiraUserEmail := "bob@example.com";
     jiraApiToken := "s3cr3t";
     versionName := "v1.2.0";
     versionDescription := "Release v1.2.0";
     released := false;
     checkIfExists := check |}.

End Plain.

(** ** Reading a trace *)

Definition is_post (e : event) : bool :=
  match e with HttpPost _ _ _ => true | _ => false end.

Definition is_output (e : event) : bool :=
  match e with SetOutput _ _ => true | _ => false end.

Definition is_failure (e : event) : bool :=
  match e with SetFailed _ => true | _ => false end.

(** A run fails when it calls [core.setFailed], and succeeds otherwise. *)
Definition failed (tr : list event) : bool := existsb is_failure tr.

Definition succeeded (tr : list event) : bool := negb (failed tr).

(** Neither an output nor a failure so far. *)
Definition quiet (tr : list event) : bool :=
  forallb (fun e => negb (is_output e || is_failure e)) tr.

Definition sets (name : string) (e : event) : bool :=
  match e with SetOutput n _ => String.eqb n name | _ => false end.

(** The text an event hands to the log: the four log levels and the
    failure message. *)
Definition logged (e : event) : option string :=
  match e with
  | Debug t | Info t | Warning t | ErrorLog t | SetFailed t => Some t
  | _ => None
  end.

(** The headers of a request with the value of Authorization blanked. *)
Definition hide_authorization (h : headers) : headers :=
  map (fun kv : string * string =>
         if String.eqb (fst kv) "Authorization"
         then (fst kv, EmptyString)
         else kv) h.

(** What a run shows apart from its credentials: the registration of the
    secrets is dropped, and a request is kept whole, URL, body and
    headers, but for the value of its Authorization header. *)
Definition public (e : event) : option event :=
  match e with
  | SetSecret _ => None
  | HttpGet url h => Some (HttpGet url (hide_authorization h))
  | HttpPost url data h => Some (HttpPost url data (hide_authorization h))
  | _ => Some e
  end.

Fixpoint public_trace (tr : list event) : list event :=
  match tr with
  | [] => []
  | e :: rest =>
      match public e with
      | Some e' => e' :: public_trace rest
      | None => public_trace rest
      end
  end.

(** ** Names for the parts of a run *)

Definition headers_of (i : inputs) : headers :=
  request_headers (base64 (jiraUserEmail i ++ ":" ++ jiraApiToken i)).

Definition version_url (i : inputs) : string :=
  jiraBaseUrl i ++ "/rest/api/3/version".

Definition versions_url (i : inputs) : string :=
  jiraBaseUrl i ++ "/rest/api/3/project/" ++ jiraProjectKey i ++ "/versions".

(** Lines 53-57: what every run emits once its inputs are read. *)
Definition prelude (i : inputs) : list event :=
  [SetSecret (jiraApiToken i);
   SetSecret (jiraUserEmail i);
   Debug "Secrets masked in logs";
   Debug ("Initializing HTTP client for " ++ jiraBaseUrl i)].

Definition creating (i : inputs) : event :=
  Info ("Creating version " ++ dq ++ versionName i ++ dq
        ++ " in project " ++ dq ++ jiraProjectKey i ++ dq ++ "...").

Definition created (shown : string) : event :=
  Info ("Version " ++ dq ++ shown ++ dq ++ " created successfully").

Definition already_exists (i : inputs) : event :=
  Info ("Version " ++ dq ++ versionName i ++ dq
        ++ " already exists in project " ++ dq ++ jiraProjectKey i ++ dq).

Definition rate_limited (attempt maxRetries : nat) : event :=
  Warning ("Rate limit exceeded, retrying in "
           ++ string_of_Z (2 ^ Z.of_nat attempt * 1000) ++ "ms ("
           ++ string_of_Z (Z.of_nat attempt) ++ "/"
           ++ string_of_Z (Z.of_nat maxRetries) ++ ")").

Definition http_failure (code : Z) : string :=
  "Version creation failed with HTTP " ++ string_of_Z code.

Definition parse_failure : string := "Failed to parse Jira response as JSON.".

Definition action_failed (text : string) : string :=
  "Action failed with error: " ++ text.

(** Lines 108-118 as a list of events. *)
Definition failure_report (E : Engine) (r : post_result) : list event :=
  [ErrorLog "Failed to create Jira version:";
   ErrorLog ("- Status: HTTP " ++ string_of_Z (status r))]
  ++ match JSON_parse E (body r) with
     | inr parsed =>
         [ErrorLog "- Error details:"; ErrorLog (JSON_stringify E parsed 2)]
     | inl _ =>
         [ErrorLog "- Raw response:"; ErrorLog (body r)]
     end
  ++ [SetFailed (http_failure (status r))].

(** The state in which the lookup phase starts. *)
Definition started (i : inputs) : state :=
  {| posts := 0; trace := prelude i |}.

(** The toolkit hands the inputs [i] to the run. *)
Definition supplies (W : World) (i : inputs) : Prop :=
  read_inputs W initial = (inr i, initial).

(** The lookup phase lets the run go on to creation, in state [st]: the
    check is off, or it found nothing. *)
Definition proceeds (E : Engine) (W : World) (i : inputs) (st : state) : Prop :=
  check_existing E W i (headers_of i) (started i)
  = (inr false, st).

(** The creation phase's POST loop returns [r], leaving state [st]: [r]
    is the final POST response of the run. *)
Definition final_response (E : Engine) (W : World) (i : inputs)
  (r : post_result) (st : state) : Prop :=
  exists st1,
    proceeds E W i st1 /\
    postWithRetry W (version_url i) (JSON_stringify E (payload i) 0)
      (headers_of i) 3 (emit (creating i) st1) = (inr r, st).

(** The element [v] is a record named [name]. *)
Definition named (name : string) (v : json) : bool :=
  match v with
  | JObject members => strict_eq_string (own_property "name" members) name
  | _ => false
  end.

(** The field [key] of a parsed value, [undefined] when it has none. *)
Definition field (v : json) (key : string) : value :=
  match v with
  | JObject members => own_property key members
  | _ => None
  end.

(** The state after one more POST. *)
Definition posted (url data : string) (h : headers) (st : state) : state :=
  {| posts := S (posts st); trace := trace st ++ [HttpPost url data h] |}.

(** The callback of [findVersion], line 35. *)
Definition name_is (name : string) (v : json) : exn + bool :=
  match get v "name" with
  | inl e => inl e
  | inr x => inr (strict_eq_string x name)
  end.

(** Lines 107 and 122: which report the final response gets. *)
Definition classify (E : Engine) (r : post_result) : M unit :=
  if (status r <? 200)%Z || (status r >=? 300)%Z
  then report_failure E r
  else report_created E r.

(** The handler of [catch], line 135. *)
Definition on_error (E : Engine) (error : exn) : M unit :=
  call (SetFailed (action_failed (message E error))).

(** Every way a run can end, with the trace it leaves. *)
Inductive path (E : Engine) (W : World) : list event -> Prop :=
| path_no_inputs e :
    fst (read_inputs W initial) = inl e ->
    path E W [SetFailed (action_failed (message E e))]
| path_lookup_throws i e st1 :
    supplies W i ->
    check_existing E W i (headers_of i) (started i)
    = (inl e, st1) ->
    path E W (trace st1 ++ [SetFailed (action_failed (message E e))])
| path_existing i st1 :
    supplies W i ->
    check_existing E W i (headers_of i) (started i)
    = (inr true, st1) ->
    path E W (trace st1)
| path_post_throws i st1 e st2 :
    supplies W i ->
    proceeds E W i st1 ->
    postWithRetry W (version_url i) (JSON_stringify E (payload i) 0)
      (headers_of i) 3 (emit (creating i) st1) = (inl e, st2) ->
    path E W (trace st2 ++ [SetFailed (action_failed (message E e))])
| path_final i r st2 :
    supplies W i ->
    final_response E W i r st2 ->
    path E W (trace (snd (try_catch (classify E r) (on_error E) st2))).

(** A trace either holds no output, or ends with the two outputs, set
    once each, after events that neither set an output nor fail. *)
Definition well_ended (tr : list event) : Prop :=
  filter is_output tr = [] \/
  exists pre x y,
    tr = (pre ++ [SetOutput "version-id" x; SetOutput "version-url" y])%list /\
    quiet pre = true.

(** ** Runs that differ in their credentials *)

(** Two states that show the same: as many POSTs sent, and traces equal
    apart from the credentials. *)
Definition same (st st' : state) : Prop :=
  posts st = posts st' /\ public_trace (trace st) = public_trace (trace st').

(** Two computations that, from states that show the same, end alike and
    in states that show the same. *)
Definition agree {A : Type} (c c' : M A) : Prop :=
  forall st st',
    same st st' ->
    fst (c st) = fst (c' st') /\ same (snd (c st)) (snd (c' st')).

(** Two toolkits that hand out the same inputs, except that the values of
    the two credentials may differ. *)
Definition same_but_credentials (W1 W2 : World) : Prop :=
  (forall name required,
      name <> "jira-user-email" -> name <> "jira-api-token" ->
      getInput W1 name required = getInput W2 name required) /\
  (forall name required,
      getInput W1 name required = getInput W2 name required \/
      exists v1 v2,
        getInput W1 name required = inr v1 /\
        getInput W2 name required = inr v2) /\
  (forall name required,
      getBooleanInput W1 name required = getBooleanInput W2 name required).

(** Two networks that answer alike. *)
Definition same_answers (W1 W2 : World) : Prop :=
  http_get W1 = http_get W2 /\ forall n, http_post W1 n = http_post W2 n.

(** The texts a trace hands to the log, in order. *)
Fixpoint log_of (tr : list event) : list string :=
  match tr with
  | [] => []
  | e :: rest =>
      match logged e with
      | Some t => t :: log_of rest
      | None => log_of rest
      end
  end.

(** ** Further readings of a trace *)

Definition is_get (e : event) : bool :=
  match e with HttpGet _ _ => true | _ => false end.

Definition is_request (e : event) : bool := is_get e || is_post e.

(** The delays a trace waits for, in order. *)
Fixpoint waits (tr : list event) : list Z :=
  match tr with
  | [] => []
  | SetTimeout ms :: rest => ms :: waits rest
  | _ :: rest => waits rest
  end.

(** Line 95: the delay after the attempt numbered [attempt]. *)
Definition backoff (attempt : nat) : Z := 2 ^ Z.of_nat attempt * 1000.

(** What [k] rate-limited passes of the loop leave in the trace, the
    counter being [attempt] before the first of them: a POST, the warning
    and the wait, [k] times. *)
Fixpoint retries_from (url data : string) (h : headers)
  (maxRetries attempt k : nat) : list event :=
  match k with
  | O => []
  | S k' =>
      HttpPost url data h
      :: rate_limited (S attempt) maxRetries
      :: SetTimeout (backoff (S attempt))
      :: retries_from url data h maxRetries (S attempt) k'
  end.

(** The values a template literal can show: everything but an object
    with a member called [toString], alone or inside arrays. *)
Fixpoint showable (v : json) : bool :=
  match v with
  | JArray items =>
      (fix all (l : list json) : bool :=
         match l with
         | [] => true
         | x :: rest => showable x && all rest
         end) items
  | JObject members =>
      match own_property "toString" members with
      | Some _ => false
      | None => true
      end
  | _ => true
  end.

Definition showable_value (x : value) : bool :=
  match x with
  | Some v => showable v
  | None => true
  end.

(** The error of a getter call, if it threw. *)
Definition thrown {A : Type} (r : exn + A) : option exn :=
  match r with
  | inl e => Some e
  | inr _ => None
  end.

(** Lines 40-47: the eight getter calls, in the order of the source. *)
Definition input_errors (W : World) : list (option exn) :=
  [thrown (getInput W "jira-base-url" true);
   thrown (getInput W "jira-project-key" true);
   thrown (getInput W "jira-user-email" true);
   thrown (getInput W "jira-api-token" true);
   thrown (getInput W "version-name" true);
   thrown (getInput W "version-description" false);
   thrown (getBooleanInput W "released" false);
   thrown (getBooleanInput W "check-if-exists" false)].

Fixpoint first_error (l : list (option exn)) : option exn :=
  match l with
  | [] => None
  | Some e :: _ => Some e
  | None :: rest => first_error rest
  end.

(** The request of the listing, when the check is on. *)
Definition lookup_request (i : inputs) : list event :=
  if checkIfExists i
  then [HttpGet (versions_url i) (headers_of i)]
  else [].

(** The POST of the creation phase. *)
Definition create_request (E : Engine) (i : inputs) : event :=
  HttpPost (version_url i) (JSON_stringify E (payload i) 0) (headers_of i).

(** How a creation phase ends, after its last POST. *)
Inductive ending (E : Engine) : list event -> Prop :=
| ending_thrown text :
    ending E [SetFailed text]
| ending_refused r :
    ~ (200 <= status r < 300)%Z ->
    ending E (failure_report E r)
| ending_created shown x y :
    ending E [created shown;
              SetOutput "version-id" x;
              SetOutput "version-url" y].

(** The four shapes of the trace of a run. *)
Inductive anatomy (E : Engine) (W : World) : list event -> Prop :=
| anatomy_no_inputs text :
    (forall i, ~ supplies W i) ->
    anatomy E W [SetFailed text]
| anatomy_lookup_failed i text :
    supplies W i ->
    checkIfExists i = true ->
    anatomy E W
      (prelude i ++ [HttpGet (versions_url i) (headers_of i);
                     SetFailed text])%list
| anatomy_existing i x y :
    supplies W i ->
    checkIfExists i = true ->
    anatomy E W
      (prelude i ++ [HttpGet (versions_url i) (headers_of i);
                     already_exists i;
                     SetOutput "version-id" x;
                     SetOutput "version-url" y])%list
| anatomy_creation i k tail :
    supplies W i ->
    k <= 3 ->
    ending E tail ->
    anatomy E W
      (prelude i ++ lookup_request i
       ++ creating i
       :: retries_from (version_url i) (JSON_stringify E (payload i) 0)
            (headers_of i) 3 0 k
       ++ create_request E i :: tail)%list.

(** The creation shape, cut before its ending. *)
Definition creation_front (E : Engine) (i : inputs) (k : nat) : list event :=
  (prelude i ++ lookup_request i
   ++ creating i
   :: retries_from (version_url i) (JSON_stringify E (payload i) 0)
        (headers_of i) 3 0 k
   ++ [create_request E i])%list.

(** The TypeError of [versions.find] on a value that is no array. *)
Definition find_error (v : json) : type_error :=
  match v with
  | JNull => ReadOfNull "find"
  | _ => NotAFunction "versions.find"
  end.

Definition is_secret (e : event) : bool :=
  match e with SetSecret _ => true | _ => false end.

(** The POSTs and the waits of a trace, in order, everything else left
    out. *)
Inductive beat : Type :=
| Post
| Wait (ms : Z).

Fixpoint beats (tr : list event) : list beat :=
  match tr with
  | [] => []
  | HttpPost _ _ _ :: rest => Post :: beats rest
  | SetTimeout ms :: rest => Wait ms :: beats rest
  | _ :: rest => beats rest
  end.

(** The POSTs and waits of the longest creation phase. *)
Definition cadence : list beat :=
  [Post; Wait 2000; Post; Wait 4000; Post; Wait 8000; Post].

(** ** Example runs *)

(** A run without lookup whose POSTs are answered by [replies], in this
    order. *)
Definition creating_world (replies : list (exn + response)) : World :=
  Plain.world (Plain.example_inputs false) (inl (Error "not called"))
    (Plain.script replies).

(** A run with lookup, whose listing request is answered by [listing]. *)
Definition checking_world (listing : exn + response)
  (replies : list (exn + response)) : World :=
  Plain.world (Plain.example_inputs true) listing (Plain.script replies).

(** [{"id":"123","self":"https://x/y/123","name":"v1.2.0"}] *)
Definition version_text : string :=
  "{" ++ Plain.quoted "id" ++ ":" ++ Plain.quoted "123" ++ ","
  ++ Plain.quoted "self" ++ ":" ++ Plain.quoted "https://x/y/123" ++ ","
  ++ Plain.quoted "name" ++ ":" ++ Plain.quoted "v1.2.0" ++ "}".

Definition version_record : json :=
  JObject [("id", JString "123");
           ("self", JString "https://x/y/123");
           ("name", JString "v1.2.0")].

Definition four_bodies (k : nat) : string :=
  nth k ["slow down"; "slow down"; "slow down"; "give up"] "".

Definition rate_limited_world : World :=
  creating_world [answers 429 (four_bodies 0); answers 429 (four_bodies 1);
                  answers 429 (four_bodies 2); answers 429 (four_bodies 3)].

Definition server_error : response :=
  {| statusCode := Some 500%Z; readBody := inr "boom" |}.

Definition server_error_world : World := creating_world [inr server_error].

Definition not_found : response :=
  {| statusCode := Some 404%Z; readBody := inr "Not Found" |}.

(** The listing answers 404; a POST would be answered with 201. *)
Definition not_found_world : World :=
  checking_world (inr not_found) [answers 201 version_text].

(** [[null,{"id":"123","self":"https://x/y/123","name":"v1.2.0"}]] *)
Definition null_first_text : string := "[null," ++ version_text ++ "]".

(** The listing holds the requested version behind a [null]. *)
Definition null_first_world : World :=
  checking_world (answers 200 null_first_text) [answers 201 version_text].

(** The listing holds another version, then the requested one. *)
Definition listed_text : string :=
  "[{" ++ Plain.quoted "id" ++ ":" ++ Plain.quoted "7" ++ ","
  ++ Plain.quoted "name" ++ ":" ++ Plain.quoted "V1.2.0" ++ "},"
  ++ version_text ++ "]".

Definition listed_world : World :=
  checking_world (answers 200 listed_text) [answers 201 version_text].

(** The state in which the POST loop of a run without lookup ends. *)
Definition final_state (E : Engine) (W : World) (i : inputs) : state :=
  snd (postWithRetry W (version_url i) (JSON_stringify E (payload i) 0)
         (headers_of i) 3 (emit (creating i) (started i))).

(** Rate limited once, then created. *)
Definition created_world : World :=
  creating_world [answers 429 "slow down"; answers 201 version_text].

Definition success (text : string) : post_result :=
  {| status := 201; body := text |}.

(** A success status with a body that is no JSON. *)
Definition html_world : World := creating_world [answers 201 "<html>"].

(** [{"id":"123","self":"https://x/y/123","name":{"toString":null}}] *)
Definition odd_name_text : string :=
  "{" ++ Plain.quoted "id" ++ ":" ++ Plain.quoted "123" ++ ","
  ++ Plain.quoted "self" ++ ":" ++ Plain.quoted "https://x/y/123" ++ ","
  ++ Plain.quoted "name" ++ ":{" ++ Plain.quoted "toString" ++ ":null}}".

Definition odd_name_world : World := creating_world [answers 201 odd_name_text].

Definition null_world : World := creating_world [answers 201 "null"].

Definition array_world : World := creating_world [answers 201 "[]"].

(** The inputs of the examples, with other credentials. *)
Definition other_inputs : inputs :=
  {| jiraBaseUrl := "https://x.atlassian.net";
     jiraProjectKey := "MYPROJ";
     jiraUserEmail := "alice@example.com";
     jiraApiToken := "t0k3n";
     versionName := "v1.2.0";
     versionDescription := "Release v1.2.0";
     released := false;
     checkIfExists := false |}.

Definition other_created_world : World :=
  Plain.world other_inputs (inl (Error "not called"))
    (Plain.script [answers 429 "slow down"; answers 201 version_text]).

(** The server refuses, and names the user in a body that is no JSON. *)
Definition refusal : string := "bob@example.com may not create versions".

Definition refusing_world : World := creating_world [answers 403 refusal].

(** The listing is empty. *)
Definition unlisted_world : World :=
  checking_world (answers 200 "[]") [answers 201 version_text].

(** The listing request cannot be sent. *)
Definition unreachable_world : World :=
  checking_world (inl (Error "getaddrinfo ENOTFOUND x.atlassian.net"))
    [answers 201 version_text].

(** The listing is answered with an object, not an array. *)
Definition object_listing_world : World :=
  checking_world (answers 200 "{}") [answers 201 version_text].

(** Rate limited once, then the connection breaks. *)
Definition broken_world : World := creating_world [answers 429 "slow down"].

(** No project key is supplied. *)
Definition keyless_world : World :=
  {| getInput := fun name required =>
       if String.eqb name "jira-project-key"
       then inl (Error "Input required and not supplied: jira-project-key")
       else getInput created_world name required;
     getBooleanInput := getBooleanInput created_world;
     http_get := http_get created_world;
     http_post := http_post created_world |}.

(** ** Traces and states *)

#[local] Open Scope list_scope.

Lemma emit_trace e st : trace (emit e st) = trace st ++ [e].
Proof. reflexivity. Qed.

Lemma emit_posts e st : posts (emit e st) = posts st.
Proof. reflexivity. Qed.

(** Bring a trace built event by event to the form [tr ++ [e1; ...; en]]. *)
Ltac trace_norm :=
  unfold emit; cbn [posts trace];
  repeat rewrite <- app_assoc; cbn [app].

Lemma quiet_app tr1 tr2 : quiet (tr1 ++ tr2) = quiet tr1 && quiet tr2.
Proof. apply forallb_app. Qed.

Lemma failed_app tr1 tr2 : failed (tr1 ++ tr2) = failed tr1 || failed tr2.
Proof. apply existsb_app. Qed.

Lemma quiet_not_failed tr : quiet tr = true -> failed tr = false.
Proof.
  unfold quiet, failed.
  induction tr as [| e tr IH]; [reflexivity |].
  cbn. intros H. apply andb_prop in H as [He Htr].
  rewrite (IH Htr). destruct e; cbn in *; congruence.
Qed.

Lemma quiet_no_output tr : quiet tr = true -> filter is_output tr = [].
Proof.
  induction tr as [| e tr IH]; [reflexivity |].
  cbn. intros H. apply andb_prop in H as [He Htr].
  rewrite (IH Htr). destruct e; cbn in *; congruence.
Qed.

(** ** The retry loop *)

Lemma retry_loop_step W url data h maxRetries attempt st :
  retry_loop W url data h maxRetries attempt st =
  match iteration W url data h maxRetries (S attempt) st with
  | Continue st' => retry_loop W url data h maxRetries (S attempt) st'
  | Return r => r
  end.
Proof.
  simp retry_loop.
  destruct (inspect (iteration W url data h maxRetries (S attempt) st))
    as [[st' | r] Heq];
    simpl; rewrite Heq; reflexivity.
Qed.

Lemma iteration_fault W url data h maxRetries attempt st e :
  http_post W (posts st) = inl e ->
  iteration W url data h maxRetries attempt st
  = Return (inl e, posted url data h st).
Proof. intros H. unfold iteration, client_post. rewrite H. reflexivity. Qed.

Lemma iteration_unread W url data h maxRetries attempt st resp e :
  http_post W (posts st) = inr resp ->
  readBody resp = inl e ->
  iteration W url data h maxRetries attempt st
  = Return (inl e, posted url data h st).
Proof.
  intros H Hb. unfold iteration, client_post. rewrite H, Hb. reflexivity.
Qed.

Lemma iteration_other W url data h maxRetries attempt st resp text :
  http_post W (posts st) = inr resp ->
  readBody resp = inr text ->
  status_of resp <> 429%Z ->
  iteration W url data h maxRetries attempt st
  = Return (inr {| status := status_of resp; body := text |},
            posted url data h st).
Proof.
  intros H Hb Hs. unfold iteration, client_post. rewrite H, Hb.
  apply Z.eqb_neq in Hs. rewrite Hs. reflexivity.
Qed.

Lemma iteration_retry W url data h maxRetries attempt st resp text :
  http_post W (posts st) = inr resp ->
  readBody resp = inr text ->
  status_of resp = 429%Z ->
  attempt <= maxRetries ->
  iteration W url data h maxRetries attempt st
  = Continue
      {| posts := S (posts st);
         trace := trace st ++ [HttpPost url data h;
                               rate_limited attempt maxRetries;
                               SetTimeout (2 ^ Z.of_nat attempt * 1000)] |}.
Proof.
  intros H Hb Hs Hle. unfold iteration, client_post. rewrite H, Hb, Hs.
  apply Nat.leb_le in Hle. rewrite Hle. cbn [Z.eqb Pos.eqb andb].
  unfold rate_limited. trace_norm. reflexivity.
Qed.

Lemma iteration_spent W url data h maxRetries attempt st resp text :
  http_post W (posts st) = inr resp ->
  readBody resp = inr text ->
  maxRetries < attempt ->
  iteration W url data h maxRetries attempt st
  = Return (inr {| status := status_of resp; body := text |},
            posted url data h st).
Proof.
  intros H Hb Hlt. unfold iteration, client_post. rewrite H, Hb.
  apply Nat.leb_gt in Hlt. rewrite Hlt, andb_false_r. reflexivity.
Qed.

(** One pass sends exactly one POST, whatever it decides. *)
Lemma iteration_posts W url data h maxRetries attempt st :
  match iteration W url data h maxRetries attempt st with
  | Continue st' => posts st' = S (posts st) /\ attempt <= maxRetries
  | Return (_, st') => posts st' = S (posts st)
  end.
Proof.
  unfold iteration, client_post.
  destruct (http_post W (posts st)) as [e | resp]; [reflexivity |].
  destruct (readBody resp); [reflexivity |].
  destruct (Nat.leb_spec attempt maxRetries) as [Hle | Hgt].
  - destruct (status_of resp =? 429)%Z; cbn; auto.
  - rewrite andb_false_r. reflexivity.
Qed.

(** From counter [attempt] on, the loop returns after at most
    [maxRetries - attempt + 1] POSTs, and after at least one. *)
Lemma retry_loop_bound W url data h maxRetries :
  forall n attempt st,
    maxRetries - attempt = n ->
    let st' := snd (retry_loop W url data h maxRetries attempt st) in
    posts st < posts st' /\ posts st' <= posts st + n + 1.
Proof.
  induction n as [| n IH]; intros attempt st Hn; cbn zeta;
    rewrite retry_loop_step;
    pose proof (iteration_posts W url data h maxRetries (S attempt) st) as Hp;
    destruct (iteration W url data h maxRetries (S attempt) st) as [st1 | [r st1]];
    cbn [snd].
  - lia.
  - lia.
  - destruct Hp as [Hp Hle].
    specialize (IH (S attempt) st1 ltac:(lia)). cbn zeta in IH. lia.
  - lia.
Qed.

(** The trace counts the POSTs. *)
Lemma iteration_trace W url data h maxRetries attempt st :
  match iteration W url data h maxRetries attempt st with
  | Continue st' | Return (_, st') =>
      exists evs,
        trace st' = trace st ++ HttpPost url data h :: evs /\
        filter is_post evs = [] /\ quiet evs = true
  end.
Proof.
  unfold iteration, client_post.
  destruct (http_post W (posts st)) as [e | resp];
    [exists []; cbn; auto |].
  destruct (readBody resp); [exists []; cbn; auto |].
  destruct ((status_of resp =? 429)%Z && (attempt <=? maxRetries)%nat).
  - eexists. trace_norm. split; [reflexivity |]. split; reflexivity.
  - exists []; cbn; auto.
Qed.

Lemma retry_loop_trace W url data h maxRetries :
  forall n attempt st,
    maxRetries - attempt = n ->
    let st' := snd (retry_loop W url data h maxRetries attempt st) in
    exists evs,
      trace st' = trace st ++ evs /\
      length (filter is_post evs) = posts st' - posts st /\
      filter is_post evs = repeat (HttpPost url data h) (posts st' - posts st) /\
      quiet evs = true.
Proof.
  induction n as [| n IH]; intros attempt st Hn; cbn zeta;
    rewrite retry_loop_step;
    pose proof (iteration_posts W url data h maxRetries (S attempt) st) as Hp;
    pose proof (iteration_trace W url data h maxRetries (S attempt) st) as Ht;
    destruct (iteration W url data h maxRetries (S attempt) st) as [st1 | [r st1]];
    cbn [snd]; destruct Ht as (evs & Ht & Hf & Hq).
  - lia.
  - exists (HttpPost url data h :: evs). rewrite Hp.
    replace (S (posts st) - posts st) with 1 by lia.
    cbn. rewrite Hf. auto.
  - destruct Hp as [Hp Hle].
    destruct (IH (S attempt) st1 ltac:(lia)) as (evs' & Ht' & Hl' & Hf' & Hq').
    cbn zeta in *.
    pose proof (retry_loop_bound W url data h maxRetries n (S attempt) st1
                  ltac:(lia)) as [Hlt _]. cbn zeta in Hlt.
    set (st' := snd (retry_loop W url data h maxRetries (S attempt) st1)) in *.
    exists (HttpPost url data h :: evs ++ evs').
    rewrite Ht', Ht, <- app_assoc. cbn.
    rewrite filter_app, Hf, Hf'. cbn.
    rewrite quiet_app, Hq, Hq'. rewrite Hp in *.
    replace (posts st' - posts st) with (S (posts st' - S (posts st))) by lia.
    rewrite repeat_length. auto.
  - exists (HttpPost url data h :: evs). rewrite Hp.
    replace (S (posts st) - posts st) with 1 by lia.
    cbn. rewrite Hf. auto.
Qed.

(** ** Reading the inputs *)

Lemma read_inputs_state W st :
  read_inputs W st = (fst (read_inputs W initial), st).
Proof.
  unfold read_inputs, bind, core_getInput, core_getBooleanInput, lift, ret.
  repeat match goal with
         | |- context [getInput W ?n ?r] => destruct (getInput W n r)
         | |- context [getBooleanInput W ?n ?r] => destruct (getBooleanInput W n r)
         end; reflexivity.
Qed.

Lemma run_supplied E W i :
  supplies W i ->
  run E W initial =
  try_catch (run_with E W i)
    (fun error => call (SetFailed (action_failed (message E error)))) initial.
Proof.
  intros H. unfold run, run_try, try_catch, bind. rewrite H. reflexivity.
Qed.

Lemma run_unsupplied E W e :
  fst (read_inputs W initial) = inl e ->
  run_trace E W = [SetFailed (action_failed (message E e))].
Proof.
  intros H. unfold run_trace, run, run_try, try_catch, bind.
  rewrite read_inputs_state, H. reflexivity.
Qed.

Lemma run_with_start E W i :
  run_with E W i initial =
  bind (check_existing E W i (headers_of i))
    (fun returned =>
       if returned then ret tt
       else create E W i (version_url i) (headers_of i))
    (started i).
Proof. reflexivity. Qed.

(** ** The lookup *)

Lemma truthy_not_null v : truthy v = true -> v <> JNull.
Proof. intros H ->. discriminate. Qed.

Lemma get_field v key : v <> JNull -> get v key = inr (field v key).
Proof. destruct v; intros H; try reflexivity. contradiction. Qed.

Lemma named_truthy name v : named name v = true -> truthy v = true.
Proof. destruct v; cbn; congruence. Qed.

Lemma name_is_named name v : v <> JNull -> name_is name v = inr (named name v).
Proof. destruct v; intros H; try reflexivity. contradiction. Qed.

Lemma Array_find_first name before rec after :
  (forall v, In v before -> v <> JNull /\ named name v = false) ->
  named name rec = true ->
  Array_find (name_is name) (before ++ rec :: after) = inr (Some rec).
Proof.
  intros Hb Hrec. induction before as [| v before IH]; cbn.
  - rewrite name_is_named, Hrec; [reflexivity |].
    apply truthy_not_null. eapply named_truthy; eassumption.
  - destruct (Hb v (or_introl eq_refl)) as [Hnn Hno].
    rewrite name_is_named, Hno by assumption.
    apply IH. intros w Hw. apply Hb. right. assumption.
Qed.

Lemma Array_find_none name items :
  (forall v, In v items -> v <> JNull /\ named name v = false) ->
  Array_find (name_is name) items = inr None.
Proof.
  induction items as [| v items IH]; intros Hb; cbn; [reflexivity |].
  destruct (Hb v (or_introl eq_refl)) as [Hnn Hno].
  rewrite name_is_named, Hno by assumption.
  apply IH. intros w Hw. apply Hb. right. assumption.
Qed.

(** What [Array_find] accepts is a record with the name asked for. *)
Lemma Array_find_some name items v :
  Array_find (name_is name) items = inr (Some v) -> named name v = true.
Proof.
  induction items as [| w items IH]; cbn; [discriminate |].
  destruct (name_is name w) as [e | [|]] eqn:Hw; try discriminate.
  - intros [= <-]. unfold name_is in Hw.
    destruct w; cbn in *; try discriminate. injection Hw. trivial.
  - exact IH.
Qed.

Lemma find_some name versions v :
  find versions (name_is name) = inr (Some v) -> named name v = true.
Proof.
  destruct versions; cbn; try discriminate. apply Array_find_some.
Qed.

(** The listing request leaves one event, whatever it answers. *)
Lemma findVersion_state E W baseUrl projectKey name h st :
  findVersion E W baseUrl projectKey name h st =
  (fst (findVersion E W baseUrl projectKey name h initial),
   emit (HttpGet (baseUrl ++ "/rest/api/3/project/" ++ projectKey
                  ++ "/versions")%string h) st).
Proof.
  unfold findVersion, getProjectVersions, bind, client_get, lift, throw, ret.
  destruct (http_get W) as [e | resp]; [reflexivity |].
  destruct (readBody resp); [reflexivity |].
  destruct (negb (status_of resp =? 200)%Z); [reflexivity |].
  destruct (JSON_parse_ E _) as [e | versions]; [reflexivity |].
  destruct (find versions _); reflexivity.
Qed.

(** What [findVersion] returns is a record with the name asked for. *)
Lemma findVersion_named E W baseUrl projectKey name h st v :
  fst (findVersion E W baseUrl projectKey name h st) = inr (Some v) ->
  named name v = true.
Proof.
  unfold findVersion, bind.
  destruct (getProjectVersions E W baseUrl projectKey h st)
    as [[e | versions] st1]; [discriminate |].
  unfold lift, ret.
  destruct (find versions _) as [e | [w |]] eqn:Hf; cbn; try discriminate.
  destruct (truthy w); [| discriminate].
  intros [= <-]. eapply find_some. exact Hf.
Qed.

Lemma check_existing_off E W i h st :
  checkIfExists i = false -> check_existing E W i h st = (inr false, st).
Proof. intros H. unfold check_existing. rewrite H. reflexivity. Qed.

(** The three ways the lookup phase can end. *)
Lemma check_existing_shape E W i h st :
  let r := check_existing E W i h st in
  posts (snd r) = posts st /\
  exists evs,
    trace (snd r) = trace st ++ evs /\
    filter is_post evs = [] /\
    match fst r with
    | inr true =>
        exists pre x y,
          evs = pre ++ [SetOutput "version-id" x; SetOutput "version-url" y] /\
          quiet pre = true
    | _ => quiet evs = true
    end.
Proof.
  cbn zeta. unfold check_existing.
  destruct (checkIfExists i).
  2:{ cbn. split; [reflexivity |]. exists []. rewrite app_nil_r.
      repeat split. }
  unfold bind.
  destruct (findVersion E W (jiraBaseUrl i) (jiraProjectKey i) (versionName i) h st)
    as [[e | [v |]] st1] eqn:Hfind;
    rewrite findVersion_state in Hfind; injection Hfind as Hres <-.
  - cbn. split; [reflexivity |]. eexists. split; [reflexivity |].
    split; reflexivity.
  - assert (Hv : truthy v = true).
    { eapply named_truthy, findVersion_named. exact Hres. }
    rewrite Hv. unfold call, lift, ret.
    rewrite !(get_field v) by (apply truthy_not_null; exact Hv).
    cbn. split; [reflexivity |].
    eexists. split; [trace_norm; reflexivity |]. split; [reflexivity |].
    exists [HttpGet (jiraBaseUrl i ++ "/rest/api/3/project/" ++ jiraProjectKey i
                     ++ "/versions")%string h; already_exists i].
    eexists. eexists. split; reflexivity.
  - cbn. split; [reflexivity |]. eexists. split; [reflexivity |].
    split; reflexivity.
Qed.

(** The two ways into the creation phase: the check is off, or the
    listing is answered with status 200 and an array without [null] and
    without a record of the requested name. *)
Lemma proceeds_unchecked E W i :
  checkIfExists i = false -> proceeds E W i (started i).
Proof. intros H. apply check_existing_off. exact H. Qed.

Lemma proceeds_unlisted E W i resp text items :
  checkIfExists i = true ->
  http_get W = inr resp ->
  readBody resp = inr text ->
  status_of resp = 200%Z ->
  JSON_parse E text = inr (JArray items) ->
  (forall v, In v items -> v <> JNull /\ named (versionName i) v = false) ->
  proceeds E W i (emit (HttpGet (versions_url i) (headers_of i)) (started i)).
Proof.
  intros Hc Hg Hb Hs Hp Hitems.
  unfold proceeds, check_existing, findVersion, getProjectVersions, bind,
    client_get, lift, throw, ret, JSON_parse_.
  rewrite Hc, Hg, Hb, Hs, Hp. cbn [Z.eqb Pos.eqb negb find].
  change (fun v : json =>
            match get v "name" with
            | inl e => inl e
            | inr name => inr (strict_eq_string name (versionName i))
            end) with (name_is (versionName i)).
  rewrite (Array_find_none _ items Hitems). reflexivity.
Qed.

(** ** The creation phase *)

Lemma report_failure_eq E r st :
  report_failure E r st =
  (inr tt, {| posts := posts st; trace := trace st ++ failure_report E r |}).
Proof.
  unfold report_failure, failure_report, bind, try_catch, call, lift,
    JSON_parse_, http_failure.
  destruct (JSON_parse E (body r)); trace_norm; reflexivity.
Qed.

Lemma report_created_unparsed E r st m :
  JSON_parse E (body r) = inl m ->
  report_created E r st = (inr tt, emit (SetFailed parse_failure) st).
Proof.
  intros H. unfold report_created, JSON_parse_. rewrite H. reflexivity.
Qed.

Lemma report_created_null E r st :
  JSON_parse E (body r) = inr JNull ->
  report_created E r st = (inl (TypeError (ReadOfNull "name")), st).
Proof.
  intros H. unfold report_created, JSON_parse_. rewrite H. reflexivity.
Qed.

Lemma report_created_unshown E r st data e :
  JSON_parse E (body r) = inr data ->
  data <> JNull ->
  template E (field data "name") = inl e ->
  report_created E r st = (inl e, st).
Proof.
  intros H Hnn Ht. unfold report_created, JSON_parse_, bind, lift.
  rewrite H, (get_field data "name" Hnn), Ht. reflexivity.
Qed.

Lemma report_created_shown E r st data shown :
  JSON_parse E (body r) = inr data ->
  data <> JNull ->
  template E (field data "name") = inr shown ->
  report_created E r st =
  (inr tt,
   {| posts := posts st;
      trace := trace st ++ [created shown;
                            SetOutput "version-id" (field data "id");
                            SetOutput "version-url" (field data "self")] |}).
Proof.
  intros H Hnn Ht. unfold report_created, JSON_parse_, bind, lift, call.
  rewrite H, !(get_field data _ Hnn), Ht. trace_norm. reflexivity.
Qed.

Lemma create_eq E W i url h st :
  create E W i url h st =
  match postWithRetry W url (JSON_stringify E (payload i) 0) h 3
          (emit (creating i) st) with
  | (inl e, st2) => (inl e, st2)
  | (inr r, st2) => classify E r st2
  end.
Proof. reflexivity. Qed.

Lemma status_success r :
  (200 <= status r < 300)%Z ->
  ((status r <? 200)%Z || (status r >=? 300)%Z) = false.
Proof.
  intros [H1 H2]. apply orb_false_iff. split.
  - apply Z.ltb_ge. exact H1.
  - rewrite Z.geb_leb. apply Z.leb_gt. exact H2.
Qed.

Lemma status_failure r :
  ~ (200 <= status r < 300)%Z ->
  ((status r <? 200)%Z || (status r >=? 300)%Z) = true.
Proof.
  intros H. destruct (Z.ltb_spec (status r) 200) as [Hlt | Hge]; [reflexivity |].
  cbn. rewrite Z.geb_leb. apply Z.leb_le. lia.
Qed.

(** A run whose POST loop returned [r] ends with the report on [r]. *)
Lemma run_final E W i r st :
  supplies W i ->
  final_response E W i r st ->
  run E W initial =
  try_catch (classify E r)
    (fun error => call (SetFailed (action_failed (message E error)))) st.
Proof.
  intros Hs (st1 & Hp & Hr).
  rewrite (run_supplied E W i Hs). unfold try_catch.
  rewrite run_with_start. unfold bind at 1. unfold proceeds in Hp. rewrite Hp.
  rewrite create_eq, Hr. reflexivity.
Qed.

(** Until the POST loop has ended, nothing is set and nothing has failed,
    and the POSTs of the trace are the loop's. *)
Lemma loop_quiet E W i st1 res st :
  proceeds E W i st1 ->
  postWithRetry W (version_url i) (JSON_stringify E (payload i) 0)
    (headers_of i) 3 (emit (creating i) st1) = (res, st) ->
  quiet (trace st) = true /\
  filter is_post (trace st)
  = repeat (HttpPost (version_url i) (JSON_stringify E (payload i) 0)
              (headers_of i)) (posts st) /\
  1 <= posts st <= 4.
Proof.
  intros Hp Hr. unfold proceeds in Hp.
  pose proof (check_existing_shape E W i (headers_of i)
                (started i)) as Hc.
  cbn zeta in Hc. rewrite Hp in Hc. cbn [fst snd posts trace started] in Hc.
  destruct Hc as (Hposts & evs & Htr & Hnp & Hq).
  unfold postWithRetry in Hr.
  pose proof (retry_loop_trace W (version_url i)
                (JSON_stringify E (payload i) 0) (headers_of i) 3 3 0
                (emit (creating i) st1) eq_refl) as Hl.
  pose proof (retry_loop_bound W (version_url i)
                (JSON_stringify E (payload i) 0) (headers_of i) 3 3 0
                (emit (creating i) st1) eq_refl) as Hb.
  cbn zeta in Hl, Hb. rewrite Hr in Hl, Hb. cbn [snd] in Hl, Hb.
  rewrite emit_posts, Hposts in Hl, Hb.
  destruct Hl as (evs' & Htr' & _ & Hf' & Hq').
  rewrite Nat.sub_0_r in Hf'.
  rewrite Htr', emit_trace, Htr. split; [| split].
  - rewrite !quiet_app, Hq, Hq'. reflexivity.
  - rewrite !filter_app, Hnp, Hf'. reflexivity.
  - lia.
Qed.

Lemma final_response_quiet E W i r st :
  final_response E W i r st ->
  quiet (trace st) = true /\
  filter is_post (trace st)
  = repeat (HttpPost (version_url i) (JSON_stringify E (payload i) 0)
              (headers_of i)) (posts st) /\
  1 <= posts st <= 4.
Proof.
  intros (st1 & Hp & Hr). eapply loop_quiet; eassumption.
Qed.

(** ** The paths of a run *)

Lemma run_path E W : path E W (run_trace E W).
Proof.
  unfold run_trace.
  destruct (fst (read_inputs W initial)) as [e | i] eqn:Hin.
  - change (trace (snd (run E W initial))) with (run_trace E W).
    rewrite (run_unsupplied E W e Hin). apply path_no_inputs. exact Hin.
  - assert (Hs : supplies W i).
    { unfold supplies. rewrite read_inputs_state, Hin. reflexivity. }
    rewrite (run_supplied E W i Hs). unfold try_catch.
    rewrite run_with_start. unfold bind at 1.
    destruct (check_existing E W i (headers_of i) _)
      as [[e | [|]] st1] eqn:Hc.
    + apply (path_lookup_throws E W i e st1 Hs Hc).
    + apply (path_existing E W i st1 Hs Hc).
    + rewrite create_eq.
      destruct (postWithRetry W (version_url i) _ (headers_of i) 3 _)
        as [[e | r] st2] eqn:Hr.
      * apply (path_post_throws E W i st1 e st2 Hs Hc Hr).
      * apply (path_final E W i r st2 Hs). exists st1. split; assumption.
Qed.

Lemma is_null (v : json) : {v = JNull} + {v <> JNull}.
Proof. destruct v; (left; reflexivity) || (right; discriminate). Qed.

(** The four ways the classification of the final response can end. *)
Lemma classify_cases E r st :
  let tr := trace (snd (try_catch (classify E r) (on_error E) st)) in
  (~ (200 <= status r < 300)%Z /\ tr = trace st ++ failure_report E r) \/
  ((200 <= status r < 300)%Z /\
   ((exists m, JSON_parse E (body r) = inl m /\
               tr = trace st ++ [SetFailed parse_failure]) \/
    (exists data e,
        JSON_parse E (body r) = inr data /\
        (data = JNull \/ template E (field data "name") = inl e) /\
        tr = trace st ++ [SetFailed (action_failed (message E e))]) \/
    (exists data shown,
        JSON_parse E (body r) = inr data /\
        data <> JNull /\
        template E (field data "name") = inr shown /\
        tr = trace st ++ [created shown;
                          SetOutput "version-id" (field data "id");
                          SetOutput "version-url" (field data "self")]))).
Proof.
  cbn zeta. unfold try_catch, classify.
  destruct (Z.le_gt_cases 200 (status r)) as [Hlo | Hlo];
    [destruct (Z.lt_ge_cases (status r) 300) as [Hhi | Hhi] |].
  - right. split; [lia |].
    rewrite status_success by lia.
    destruct (JSON_parse E (body r)) as [m | data] eqn:Hp.
    + left. exists m. rewrite (report_created_unparsed E r st m Hp).
      split; reflexivity.
    + destruct (is_null data) as [-> | Hnn].
      * right. left. exists JNull, (TypeError (ReadOfNull "name")).
        rewrite (report_created_null E r st Hp).
        split; [reflexivity | split; [left; reflexivity | reflexivity]].
      * destruct (template E (field data "name")) as [e | shown] eqn:Ht.
        -- right. left. exists data, e.
           rewrite (report_created_unshown E r st data e Hp Hnn Ht).
           split; [reflexivity | split; [right; exact Ht | reflexivity]].
        -- right. right. exists data, shown.
           rewrite (report_created_shown E r st data shown Hp Hnn Ht).
           split; [reflexivity | split; [assumption | split; [exact Ht | reflexivity]]].
  - left. split; [lia |].
    rewrite status_failure, report_failure_eq by lia. reflexivity.
  - left. split; [lia |].
    rewrite status_failure, report_failure_eq by lia. reflexivity.
Qed.

(** ** The retry loop: claims *)

(** Four rate-limited answers in a row, from any state and for any
    request: three retries with their waits, then the fourth answer is
    returned. *)
Lemma postWithRetry_exhausted W url data h st (b : nat -> string) :
  (forall k, k < 4 -> http_post W (posts st + k) = answers 429 (b k)) ->
  postWithRetry W url data h 3 st =
  (inr {| status := 429; body := b 3 |},
   {| posts := posts st + 4;
      trace := trace st ++ [HttpPost url data h;
                            rate_limited 1 3; SetTimeout 2000;
                            HttpPost url data h;
                            rate_limited 2 3; SetTimeout 4000;
                            HttpPost url data h;
                            rate_limited 3 3; SetTimeout 8000;
                            HttpPost url data h] |}).
Proof.
  intros H. unfold postWithRetry.
  pose proof (H 0 ltac:(lia)) as H0. rewrite Nat.add_0_r in H0.
  pose proof (H 1 ltac:(lia)) as H1. rewrite Nat.add_1_r in H1.
  pose proof (H 2 ltac:(lia)) as H2.
  replace (posts st + 2) with (S (S (posts st))) in H2 by lia.
  pose proof (H 3 ltac:(lia)) as H3.
  replace (posts st + 3) with (S (S (S (posts st)))) in H3 by lia.
  rewrite retry_loop_step.
  erewrite iteration_retry;
    [| cbn [posts]; exact H0 | reflexivity | reflexivity | lia].
  rewrite retry_loop_step.
  erewrite iteration_retry;
    [| cbn [posts]; exact H1 | reflexivity | reflexivity | lia].
  rewrite retry_loop_step.
  erewrite iteration_retry;
    [| cbn [posts]; exact H2 | reflexivity | reflexivity | lia].
  rewrite retry_loop_step.
  erewrite iteration_spent;
    [| cbn [posts]; exact H3 | reflexivity | lia].
  unfold posted. trace_norm.
  replace (posts st + 4) with (S (S (S (S (posts st))))) by lia.
  reflexivity.
Qed.

(** C2.  When the first four POSTs of the creation phase are each
    answered with status 429, the retry loop sends exactly four POSTs,
    all with the same URL, body and headers, waits 2000, 4000 and 8000
    milliseconds before the second, third and fourth, and returns the
    fourth answer; the classification then reports an ordinary HTTP
    failure, with status 429. *)
Theorem C2_four_rate_limits E W i st1 (b : nat -> string) :
  supplies W i ->
  proceeds E W i st1 ->
  (forall k, k < 4 -> http_post W k = answers 429 (b k)) ->
  let request :=
    HttpPost (version_url i) (JSON_stringify E (payload i) 0) (headers_of i) in
  let attempts :=
    [request; rate_limited 1 3; SetTimeout 2000;
     request; rate_limited 2 3; SetTimeout 4000;
     request; rate_limited 3 3; SetTimeout 8000;
     request] in
  let last := {| status := 429; body := b 3 |} in
  final_response E W i last
    {| posts := 4; trace := trace st1 ++ creating i :: attempts |} /\
  run_trace E W
  = trace st1 ++ creating i :: attempts ++ failure_report E last /\
  filter is_post (run_trace E W) = [request; request; request; request] /\
  In (SetFailed "Version creation failed with HTTP 429") (run_trace E W).
Proof.
  intros Hs Hp Hb request attempts last.
  assert (Hposts : posts st1 = 0).
  { pose proof (check_existing_shape E W i (headers_of i)
                  (started i)) as Hc.
    cbn zeta in Hc. unfold proceeds in Hp. rewrite Hp in Hc. apply Hc. }
  assert (Hf : final_response E W i last
                 {| posts := 4; trace := trace st1 ++ creating i :: attempts |}).
  { exists st1. split; [exact Hp |].
    rewrite (postWithRetry_exhausted W _ _ _ (emit (creating i) st1) b).
    - rewrite emit_posts, Hposts. trace_norm. reflexivity.
    - intros k Hk. rewrite emit_posts, Hposts. apply Hb. exact Hk. }
  assert (Htr : run_trace E W
                = trace st1 ++ creating i :: attempts ++ failure_report E last).
  { unfold run_trace. rewrite (run_final E W i last _ Hs Hf).
    unfold try_catch, classify. rewrite status_failure by (cbn; lia).
    rewrite report_failure_eq. cbn [snd trace].
    rewrite <- app_assoc. reflexivity. }
  split; [exact Hf |]. split; [exact Htr |].
  pose proof (final_response_quiet E W i last _ Hf) as (_ & Hposted & _).
  cbn [trace posts] in Hposted. split.
  - rewrite Htr.
    change (trace st1 ++ creating i :: attempts ++ failure_report E last)
      with (trace st1 ++ (creating i :: attempts) ++ failure_report E last).
    rewrite app_assoc, filter_app, Hposted.
    unfold failure_report. rewrite !filter_app.
    destruct (JSON_parse E (body last)); reflexivity.
  - rewrite Htr. apply in_or_app. right. right.
    apply in_or_app. right. unfold failure_report.
    apply in_or_app. right. apply in_or_app. right. left. reflexivity.
Qed.

Lemma C2_four_rate_limits_witness :
  filter is_post (run_trace Plain.engine rate_limited_world)
  = repeat (HttpPost (version_url (Plain.example_inputs false))
              (JSON_stringify Plain.engine
                 (payload (Plain.example_inputs false)) 0)
              (headers_of (Plain.example_inputs false))) 4 /\
  In (SetFailed "Version creation failed with HTTP 429")
    (run_trace Plain.engine rate_limited_world).
Proof.
  refine (proj2 (proj2 (C2_four_rate_limits Plain.engine rate_limited_world
                          (Plain.example_inputs false)
                          (started (Plain.example_inputs false))
                          four_bodies _ _ _))).
  - reflexivity.
  - reflexivity.
  - intros k Hk.
    do 4 (destruct k as [| k]; [reflexivity |]). lia.
Defined.

Lemma failure_report_posts E r : filter is_post (failure_report E r) = [].
Proof.
  unfold failure_report. rewrite !filter_app.
  destruct (JSON_parse E (body r)); reflexivity.
Qed.

Lemma failure_report_fails E r :
  In (SetFailed (http_failure (status r))) (failure_report E r).
Proof.
  unfold failure_report. apply in_or_app. right.
  apply in_or_app. right. left. reflexivity.
Qed.

Lemma failure_report_outputs E r : filter is_output (failure_report E r) = [].
Proof.
  unfold failure_report. rewrite !filter_app.
  destruct (JSON_parse E (body r)); reflexivity.
Qed.

(** The report on the final response sends nothing. *)
Lemma classify_posts E r st :
  filter is_post (trace (snd (try_catch (classify E r) (on_error E) st)))
  = filter is_post (trace st).
Proof.
  destruct (classify_cases E r st)
    as [[_ ->] | [_ [(m & _ & ->) | [(d & e & _ & _ & ->)
                                    | (d & shown & _ & _ & _ & ->)]]]];
    rewrite filter_app; [rewrite failure_report_posts | | |];
    cbn; apply app_nil_r.
Qed.

(** C3.  Whenever the loop is answered with a status other than 429, at
    whatever attempt, it returns that answer at once and unchanged: one
    POST, no warning, no wait.  In particular a first answer with a status
    outside [200,300), such as 500, makes a run with exactly one POST that
    reports a failure carrying that status. *)
Theorem C3_other_status_ends_loop W url data h maxRetries resp text :
  readBody resp = inr text ->
  status_of resp <> 429%Z ->
  (forall attempt st,
      http_post W (posts st) = inr resp ->
      retry_loop W url data h maxRetries attempt st
      = (inr {| status := status_of resp; body := text |},
         posted url data h st)) /\
  (forall E i st1,
      supplies W i ->
      proceeds E W i st1 ->
      http_post W 0 = inr resp ->
      ~ (200 <= status_of resp < 300)%Z ->
      let request :=
        HttpPost (version_url i) (JSON_stringify E (payload i) 0)
          (headers_of i) in
      run_trace E W
      = trace st1 ++ [creating i; request]
        ++ failure_report E {| status := status_of resp; body := text |} /\
      filter is_post (run_trace E W) = [request] /\
      In (SetFailed (http_failure (status_of resp))) (run_trace E W)).
Proof.
  intros Hb Hs.
  assert (Hloop : forall attempt st,
             http_post W (posts st) = inr resp ->
             retry_loop W url data h maxRetries attempt st
             = (inr {| status := status_of resp; body := text |},
                posted url data h st)).
  { intros attempt st Hr. rewrite retry_loop_step.
    rewrite (iteration_other W url data h maxRetries (S attempt) st resp text
               Hr Hb Hs). reflexivity. }
  split; [exact Hloop |].
  intros E i st1 Hsup Hp Hr0 Hout request. subst request.
  set (r := {| status := status_of resp; body := text |}).
  assert (Hposts : posts st1 = 0).
  { pose proof (check_existing_shape E W i (headers_of i)
                  (started i)) as Hc.
    cbn zeta in Hc. unfold proceeds in Hp. rewrite Hp in Hc. apply Hc. }
  assert (Hf : final_response E W i r
                 (posted (version_url i) (JSON_stringify E (payload i) 0)
                    (headers_of i) (emit (creating i) st1))).
  { exists st1. split; [exact Hp |]. unfold postWithRetry.
    rewrite retry_loop_step.
    rewrite (iteration_other W _ _ _ 3 1 _ resp text); try assumption.
    - reflexivity.
    - rewrite emit_posts, Hposts. exact Hr0. }
  assert (Htr : run_trace E W
                = trace st1
                  ++ [creating i;
                      HttpPost (version_url i) (JSON_stringify E (payload i) 0)
                        (headers_of i)]
                  ++ failure_report E r).
  { unfold run_trace. rewrite (run_final E W i r _ Hsup Hf).
    unfold try_catch, classify. rewrite status_failure by exact Hout.
    rewrite report_failure_eq. unfold posted. trace_norm. reflexivity. }
  split; [exact Htr |].
  pose proof (final_response_quiet E W i r _ Hf) as (_ & Hposted & _).
  unfold posted in Hposted. cbn [trace posts] in Hposted.
  rewrite emit_posts, Hposts, emit_trace, <- app_assoc in Hposted.
  cbn [app] in Hposted.
  split.
  - rewrite Htr.
    rewrite app_assoc, filter_app, Hposted, failure_report_posts.
    reflexivity.
  - rewrite Htr. apply in_or_app. right. apply in_or_app. right.
    apply (failure_report_fails E r).
Qed.

Lemma C3_other_status_ends_loop_witness :
  filter is_post (run_trace Plain.engine server_error_world)
  = [HttpPost (version_url (Plain.example_inputs false))
       (JSON_stringify Plain.engine (payload (Plain.example_inputs false)) 0)
       (headers_of (Plain.example_inputs false))] /\
  In (SetFailed "Version creation failed with HTTP 500")
    (run_trace Plain.engine server_error_world).
Proof.
  refine (proj2 (proj2 (C3_other_status_ends_loop server_error_world
                          (version_url (Plain.example_inputs false))
                          "{}" [] 3 server_error "boom" eq_refl _)
                   Plain.engine (Plain.example_inputs false)
                   (started (Plain.example_inputs false))
                   eq_refl eq_refl eq_refl _)).
  - intros H. discriminate H.
  - intros [_ H]. discriminate H.
Defined.

(** C9.  [postWithRetry] is a total function of the answers, however many
    the world holds: it ends after at least one and at most
    [maxRetries + 1] POSTs, because a pass through the loop body only asks
    for another pass when its counter is at most [maxRetries], and the
    counter grows by one with each pass; a pass whose counter exceeds
    [maxRetries] returns whatever the status.  A whole run, which calls it
    with [maxRetries = 3], sends at most four POSTs. *)
Theorem C9_retry_loop_terminates W url data h maxRetries :
  (forall st,
      let st' := snd (postWithRetry W url data h maxRetries st) in
      posts st < posts st' /\ posts st' <= posts st + maxRetries + 1 /\
      exists evs,
        trace st' = trace st ++ evs /\
        length (filter is_post evs) = posts st' - posts st) /\
  (forall attempt st,
      match iteration W url data h maxRetries attempt st with
      | Continue st' => attempt <= maxRetries /\ posts st' = S (posts st)
      | Return _ => True
      end) /\
  (forall attempt st,
      maxRetries < attempt ->
      exists r, iteration W url data h maxRetries attempt st = Return r) /\
  (forall attempt st,
      retry_loop W url data h maxRetries attempt st
      = match iteration W url data h maxRetries (S attempt) st with
        | Continue st' => retry_loop W url data h maxRetries (S attempt) st'
        | Return r => r
        end) /\
  (forall E, length (filter is_post (run_trace E W)) <= 4).
Proof.
  split; [| split; [| split; [| split]]].
  - intros st. cbn zeta. unfold postWithRetry.
    pose proof (retry_loop_bound W url data h maxRetries maxRetries 0 st
                  (Nat.sub_0_r _)) as [Hlo Hhi].
    pose proof (retry_loop_trace W url data h maxRetries maxRetries 0 st
                  (Nat.sub_0_r _)) as (evs & Ht & Hl & _).
    cbn zeta in *. split; [exact Hlo |]. split; [exact Hhi |].
    exists evs. split; assumption.
  - intros attempt st.
    pose proof (iteration_posts W url data h maxRetries attempt st) as Hp.
    destruct (iteration W url data h maxRetries attempt st); [| exact I].
    destruct Hp. split; assumption.
  - intros attempt st Hlt.
    pose proof (iteration_posts W url data h maxRetries attempt st) as Hp.
    destruct (iteration W url data h maxRetries attempt st) as [st' | r].
    + destruct Hp. lia.
    + exists r. reflexivity.
  - intros attempt st. apply retry_loop_step.
  - intros E. destruct (run_path E W) as [e He | i e st1 Hs Hc | i st1 Hs Hc
                                         | i st1 e st2 Hs Hp Hr | i r st2 Hs Hf].
    + cbn. lia.
    + pose proof (check_existing_shape E W i (headers_of i)
                    (started i)) as Hsh.
      cbn zeta in Hsh. rewrite Hc in Hsh. cbn [fst snd trace posts started] in Hsh.
      destruct Hsh as (_ & evs & -> & Hnp & _).
      rewrite !filter_app, Hnp. cbn. lia.
    + pose proof (check_existing_shape E W i (headers_of i)
                    (started i)) as Hsh.
      cbn zeta in Hsh. rewrite Hc in Hsh. cbn [fst snd trace posts started] in Hsh.
      destruct Hsh as (_ & evs & -> & Hnp & _).
      rewrite !filter_app, Hnp. cbn. lia.
    + pose proof (loop_quiet E W i st1 (inl e) st2 Hp Hr) as (_ & Hposted & Hn).
      rewrite filter_app, Hposted, length_app, repeat_length. cbn. lia.
    + pose proof (final_response_quiet E W i r st2 Hf) as (_ & Hposted & Hn).
      rewrite classify_posts, Hposted, repeat_length. lia.
Qed.

(** ** The lookup: claims *)

Lemma check_existing_refused E W i resp text st :
  checkIfExists i = true ->
  http_get W = inr resp ->
  readBody resp = inr text ->
  status_of resp <> 200%Z ->
  check_existing E W i (headers_of i) st
  = (inl (Error ("Failed to fetch versions: HTTP "
                 ++ string_of_Z (status_of resp))%string),
     emit (HttpGet (versions_url i) (headers_of i)) st).
Proof.
  intros Hc Hg Hb Hs.
  unfold check_existing, findVersion, getProjectVersions, bind, client_get,
    lift, throw.
  rewrite Hc, Hg, Hb. apply Z.eqb_neq in Hs. rewrite Hs. reflexivity.
Qed.

(** C1, as the code has it.  With check-if-exists on, a listing request
    that is answered, with a readable body, by any status other than 200
    ends the run there: the run fails with the message
    "Action failed with error: Failed to fetch versions: HTTP <status>",
    sends no POST and sets no output. *)
Theorem C1_lookup_failure_aborts E W i resp text :
  supplies W i ->
  checkIfExists i = true ->
  http_get W = inr resp ->
  readBody resp = inr text ->
  status_of resp <> 200%Z ->
  run_trace E W
  = prelude i
    ++ [HttpGet (versions_url i) (headers_of i);
        SetFailed ("Action failed with error: Failed to fetch versions: HTTP "
                   ++ string_of_Z (status_of resp))%string] /\
  failed (run_trace E W) = true /\
  filter is_post (run_trace E W) = [] /\
  filter is_output (run_trace E W) = [].
Proof.
  intros Hs Hc Hg Hb Hst.
  assert (Htr : run_trace E W
                = prelude i
                  ++ [HttpGet (versions_url i) (headers_of i);
                      SetFailed
                        ("Action failed with error: Failed to fetch versions: HTTP "
                         ++ string_of_Z (status_of resp))%string]).
  { unfold run_trace. rewrite (run_supplied E W i Hs). unfold try_catch.
    rewrite run_with_start. unfold bind.
    rewrite (check_existing_refused E W i resp text _ Hc Hg Hb Hst).
    reflexivity. }
  rewrite Htr. repeat split.
Qed.

Lemma C1_lookup_failure_aborts_witness :
  run_trace Plain.engine not_found_world
  = prelude (Plain.example_inputs true)
    ++ [HttpGet (versions_url (Plain.example_inputs true))
          (headers_of (Plain.example_inputs true));
        SetFailed "Action failed with error: Failed to fetch versions: HTTP 404"].
Proof.
  exact (proj1 (C1_lookup_failure_aborts Plain.engine not_found_world
                  (Plain.example_inputs true) not_found "Not Found"
                  eq_refl eq_refl eq_refl eq_refl
                  (fun H : status_of not_found = 200%Z =>
                     match H in _ = z
                           return match z with 200%Z => False | _ => True end
                     with eq_refl => I end))).
Defined.

(** C1 as stated fails: check-if-exists is on, the listing is answered
    with status 404, and the run fails without any POST. *)
Lemma C1_lookup_failure_counterexample :
  supplies not_found_world (Plain.example_inputs true) /\
  checkIfExists (Plain.example_inputs true) = true /\
  http_get not_found_world = inr not_found /\
  readBody not_found = inr "Not Found" /\
  status_of not_found = 404%Z /\
  failed (run_trace Plain.engine not_found_world) = true /\
  ~ (exists request,
        In request (run_trace Plain.engine not_found_world) /\
        is_post request = true).
Proof.
  repeat split; try reflexivity.
  intros (request & Hin & Hpost).
  assert (H : filter is_post (run_trace Plain.engine not_found_world) = [])
    by reflexivity.
  assert (Hin' : In request
                   (filter is_post (run_trace Plain.engine not_found_world))).
  { apply filter_In. split; assumption. }
  rewrite H in Hin'. exact Hin'.
Qed.

Lemma check_existing_found E W i resp text before rec after st :
  checkIfExists i = true ->
  http_get W = inr resp ->
  readBody resp = inr text ->
  status_of resp = 200%Z ->
  JSON_parse E text = inr (JArray (before ++ rec :: after)) ->
  (forall v, In v before -> v <> JNull /\ named (versionName i) v = false) ->
  named (versionName i) rec = true ->
  check_existing E W i (headers_of i) st
  = (inr true,
     {| posts := posts st;
        trace := trace st ++ [HttpGet (versions_url i) (headers_of i);
                              already_exists i;
                              SetOutput "version-id" (field rec "id");
                              SetOutput "version-url" (field rec "self")] |}).
Proof.
  intros Hc Hg Hb Hs Hp Hbefore Hrec.
  pose proof (named_truthy _ _ Hrec) as Ht.
  pose proof (truthy_not_null _ Ht) as Hnn.
  unfold check_existing, findVersion, getProjectVersions, bind, client_get,
    lift, throw, ret, JSON_parse_.
  rewrite Hc, Hg, Hb, Hs, Hp. cbn [Z.eqb Pos.eqb negb find].
  change (fun v : json =>
            match get v "name" with
            | inl e => inl e
            | inr name => inr (strict_eq_string name (versionName i))
            end) with (name_is (versionName i)).
  rewrite (Array_find_first _ before rec after Hbefore Hrec).
  cbn [or_null]. rewrite Ht. cbn iota. rewrite Ht. unfold call.
  rewrite !(get_field rec _ Hnn). unfold already_exists, versions_url.
  trace_norm. reflexivity.
Qed.

(** C6, as the code has it.  With check-if-exists on, a listing answered
    with status 200 whose body parses to an array, a record of that array
    whose name is exactly the requested one, and no [null] element and no
    such record before it: that record is selected, the run succeeds
    without any POST, and the outputs are the record's [id] and [self].
    Names are compared as strings, character by character, so "V1.2.0"
    is not "v1.2.0". *)
Theorem C6_existing_version_reused E W i resp text before rec after :
  supplies W i ->
  checkIfExists i = true ->
  http_get W = inr resp ->
  readBody resp = inr text ->
  status_of resp = 200%Z ->
  JSON_parse E text = inr (JArray (before ++ rec :: after)) ->
  (forall v, In v before -> v <> JNull /\ named (versionName i) v = false) ->
  named (versionName i) rec = true ->
  run_trace E W
  = prelude i ++ [HttpGet (versions_url i) (headers_of i);
                  already_exists i;
                  SetOutput "version-id" (field rec "id");
                  SetOutput "version-url" (field rec "self")] /\
  filter is_post (run_trace E W) = [] /\
  succeeded (run_trace E W) = true /\
  (forall name members,
      named name (JObject members) = true <->
      own_property "name" members = Some (JString name)) /\
  named "v1.2.0" (JObject [("name", JString "V1.2.0")]) = false.
Proof.
  intros Hs Hc Hg Hb Hst Hp Hbefore Hrec.
  assert (Htr : run_trace E W
                = prelude i ++ [HttpGet (versions_url i) (headers_of i);
                                already_exists i;
                                SetOutput "version-id" (field rec "id");
                                SetOutput "version-url" (field rec "self")]).
  { unfold run_trace. rewrite (run_supplied E W i Hs). unfold try_catch.
    rewrite run_with_start. unfold bind.
    rewrite (check_existing_found E W i resp text before rec after _
               Hc Hg Hb Hst Hp Hbefore Hrec).
    reflexivity. }
  rewrite Htr. split; [reflexivity |]. split; [reflexivity |].
  split; [reflexivity |]. split; [| reflexivity].
  intros name members. cbn [named]. unfold strict_eq_string.
  destruct (own_property "name" members) as [[| | | t | |] |];
    try (split; discriminate).
  rewrite String.eqb_eq. split; [intros -> | intros [= ->]]; reflexivity.
Qed.

Lemma C6_existing_version_reused_witness :
  run_trace Plain.engine listed_world
  = prelude (Plain.example_inputs true)
    ++ [HttpGet (versions_url (Plain.example_inputs true))
          (headers_of (Plain.example_inputs true));
        already_exists (Plain.example_inputs true);
        SetOutput "version-id" (Some (JString "123"));
        SetOutput "version-url" (Some (JString "https://x/y/123"))].
Proof.
  refine (proj1 (C6_existing_version_reused Plain.engine listed_world
                   (Plain.example_inputs true)
                   {| statusCode := Some 200%Z; readBody := inr listed_text |}
                   listed_text
                   [JObject [("id", JString "7"); ("name", JString "V1.2.0")]]
                   version_record []
                   eq_refl eq_refl eq_refl eq_refl eq_refl eq_refl _ eq_refl)).
  intros v [<- | []]. split; [discriminate | reflexivity].
Defined.

(** C6 as stated fails: the parsed list holds a record with the requested
    name, but a [null] stands before it; the callback of [find] reads
    [name] from [null], and the run fails with no output. *)
Lemma C6_existing_version_counterexample :
  supplies null_first_world (Plain.example_inputs true) /\
  checkIfExists (Plain.example_inputs true) = true /\
  http_get null_first_world = answers 200 null_first_text /\
  JSON_parse Plain.engine null_first_text
  = inr (JArray [JNull; version_record]) /\
  named (versionName (Plain.example_inputs true)) version_record = true /\
  run_trace Plain.engine null_first_world
  = prelude (Plain.example_inputs true)
    ++ [HttpGet (versions_url (Plain.example_inputs true))
          (headers_of (Plain.example_inputs true));
        SetFailed
          "Action failed with error: Cannot read properties of null (reading 'name')"] /\
  filter is_output (run_trace Plain.engine null_first_world) = [].
Proof. repeat split. Qed.

(** ** The final response: claims *)

Lemma final_response_no_output E W i r st :
  final_response E W i r st -> filter is_output (trace st) = [].
Proof.
  intros Hf. apply quiet_no_output.
  apply (final_response_quiet E W i r st Hf).
Qed.

Lemma final_response_not_failed E W i r st :
  final_response E W i r st -> failed (trace st) = false.
Proof.
  intros Hf. apply quiet_not_failed.
  apply (final_response_quiet E W i r st Hf).
Qed.

(** A success status, a body that parses to anything but [null], and a
    name that can be shown: the run ends with the confirmation and the
    two outputs. *)
Lemma run_created E W i r st data shown :
  supplies W i ->
  final_response E W i r st ->
  (200 <= status r < 300)%Z ->
  JSON_parse E (body r) = inr data ->
  data <> JNull ->
  template E (field data "name") = inr shown ->
  run_trace E W
  = trace st ++ [created shown;
                 SetOutput "version-id" (field data "id");
                 SetOutput "version-url" (field data "self")] /\
  succeeded (run_trace E W) = true /\
  filter is_output (run_trace E W)
  = [SetOutput "version-id" (field data "id");
     SetOutput "version-url" (field data "self")].
Proof.
  intros Hs Hf Hst Hp Hnn Ht.
  assert (Htr : run_trace E W
                = trace st ++ [created shown;
                               SetOutput "version-id" (field data "id");
                               SetOutput "version-url" (field data "self")]).
  { unfold run_trace. rewrite (run_final E W i r st Hs Hf).
    unfold try_catch, classify. rewrite status_success by exact Hst.
    rewrite (report_created_shown E r st data shown Hp Hnn Ht). reflexivity. }
  rewrite Htr. split; [reflexivity |]. split.
  - unfold succeeded. rewrite failed_app.
    rewrite (final_response_not_failed E W i r st Hf). reflexivity.
  - rewrite filter_app, (final_response_no_output E W i r st Hf). reflexivity.
Qed.

(** C4, as the code has it.  When the final POST response has a status in
    [200,300) and a body that parses to a JSON object whose [name] can be
    put into the confirmation line (it is absent, or converts to a string
    without raising), the run ends in success and sets version-id to the
    object's [id] and version-url to its [self]. *)
Theorem C4_created_outputs E W i r st members shown :
  supplies W i ->
  final_response E W i r st ->
  (200 <= status r < 300)%Z ->
  JSON_parse E (body r) = inr (JObject members) ->
  template E (own_property "name" members) = inr shown ->
  run_trace E W
  = trace st ++ [created shown;
                 SetOutput "version-id" (own_property "id" members);
                 SetOutput "version-url" (own_property "self" members)] /\
  succeeded (run_trace E W) = true /\
  filter is_output (run_trace E W)
  = [SetOutput "version-id" (own_property "id" members);
     SetOutput "version-url" (own_property "self" members)].
Proof.
  intros Hs Hf Hst Hp Ht.
  apply (run_created E W i r st (JObject members) shown Hs Hf Hst Hp);
    [discriminate | exact Ht].
Qed.

Lemma C4_created_outputs_witness :
  filter is_output (run_trace Plain.engine created_world)
  = [SetOutput "version-id" (Some (JString "123"));
     SetOutput "version-url" (Some (JString "https://x/y/123"))].
Proof.
  refine (proj2 (proj2 (C4_created_outputs Plain.engine created_world
                          (Plain.example_inputs false) (success version_text)
                          (final_state Plain.engine created_world
                             (Plain.example_inputs false))
                          [("id", JString "123");
                           ("self", JString "https://x/y/123");
                           ("name", JString "v1.2.0")]
                          "v1.2.0" eq_refl _ _ eq_refl eq_refl))).
  - exists (started (Plain.example_inputs false)). split; reflexivity.
  - split; [discriminate | reflexivity].
Defined.

(** C4 as stated fails: the status is 201 and the body parses to a JSON
    object, but its [name] is an object with a member called [toString];
    building the confirmation line raises a TypeError, and the run fails
    with no output. *)
Lemma C4_created_outputs_counterexample :
  supplies odd_name_world (Plain.example_inputs false) /\
  final_response Plain.engine odd_name_world (Plain.example_inputs false)
    (success odd_name_text)
    (final_state Plain.engine odd_name_world (Plain.example_inputs false)) /\
  JSON_parse Plain.engine odd_name_text
  = inr (JObject [("id", JString "123");
                  ("self", JString "https://x/y/123");
                  ("name", JObject [("toString", JNull)])]) /\
  run_trace Plain.engine odd_name_world
  = trace (final_state Plain.engine odd_name_world (Plain.example_inputs false))
    ++ [SetFailed
          "Action failed with error: Cannot convert object to primitive value"] /\
  succeeded (run_trace Plain.engine odd_name_world) = false /\
  filter is_output (run_trace Plain.engine odd_name_world) = [].
Proof.
  split; [reflexivity |]. split.
  - exists (started (Plain.example_inputs false)). split; reflexivity.
  - repeat split.
Qed.

(** C5.  When the final POST response has a status in [200,300) and a
    body that JSON.parse rejects, the run fails with the message
    "Failed to parse Jira response as JSON.", which is not the message of
    an HTTP failure for any status, and no output is set. *)
Theorem C5_unparseable_success_body E W i r st m :
  supplies W i ->
  final_response E W i r st ->
  (200 <= status r < 300)%Z ->
  JSON_parse E (body r) = inl m ->
  run_trace E W
  = trace st ++ [SetFailed "Failed to parse Jira response as JSON."] /\
  failed (run_trace E W) = true /\
  (forall code, "Failed to parse Jira response as JSON." <> http_failure code) /\
  filter is_output (run_trace E W) = [].
Proof.
  intros Hs Hf Hst Hp.
  assert (Htr : run_trace E W
                = trace st ++ [SetFailed "Failed to parse Jira response as JSON."]).
  { unfold run_trace. rewrite (run_final E W i r st Hs Hf).
    unfold try_catch, classify. rewrite status_success by exact Hst.
    rewrite (report_created_unparsed E r st m Hp). reflexivity. }
  rewrite Htr. split; [reflexivity |]. split; [| split].
  - rewrite failed_app. cbn. apply orb_true_r.
  - intros code H. unfold http_failure in H. cbn in H. discriminate H.
  - rewrite filter_app, (final_response_no_output E W i r st Hf). reflexivity.
Qed.

Lemma C5_unparseable_success_body_witness :
  run_trace Plain.engine html_world
  = trace (final_state Plain.engine html_world (Plain.example_inputs false))
    ++ [SetFailed "Failed to parse Jira response as JSON."] /\
  filter is_output (run_trace Plain.engine html_world) = [].
Proof.
  refine ((fun H => conj (proj1 H) (proj2 (proj2 (proj2 H))))
            (C5_unparseable_success_body Plain.engine html_world
               (Plain.example_inputs false) (success "<html>")
               (final_state Plain.engine html_world (Plain.example_inputs false))
               "Unexpected token in JSON" eq_refl _ _ eq_refl)).
  - exists (started (Plain.example_inputs false)). split; reflexivity.
  - split; [discriminate | reflexivity].
Defined.

(** C10, as the code has it.  The success path validates nothing: when
    the final POST response has a status in [200,300) and a body that
    parses to any JSON value other than [null] whose [name], if it has
    one, can be shown, the run ends in success and sets the outputs to the
    value's [id] and [self], which are undefined when the value is not an
    object or lacks them; the confirmation line then shows "undefined"
    for a missing name. *)
Theorem C10_no_validation_on_success E W i r st data shown :
  supplies W i ->
  final_response E W i r st ->
  (200 <= status r < 300)%Z ->
  JSON_parse E (body r) = inr data ->
  data <> JNull ->
  template E (field data "name") = inr shown ->
  run_trace E W
  = trace st ++ [created shown;
                 SetOutput "version-id" (field data "id");
                 SetOutput "version-url" (field data "self")] /\
  succeeded (run_trace E W) = true /\
  ((forall members, data <> JObject members) ->
   field data "id" = None /\ field data "self" = None /\
   shown = "undefined") /\
  (forall members key,
      data = JObject members ->
      own_property key members = None -> field data key = None).
Proof.
  intros Hs Hf Hst Hp Hnn Ht.
  destruct (run_created E W i r st data shown Hs Hf Hst Hp Hnn Ht)
    as (Htr & Hok & _).
  split; [exact Htr |]. split; [exact Hok |]. split.
  - intros Hno.
    destruct data; try (cbn in Ht; injection Ht as <-; repeat split).
    exfalso. eapply Hno. reflexivity.
  - intros members key -> Hkey. exact Hkey.
Qed.

Lemma C10_no_validation_on_success_witness :
  run_trace Plain.engine array_world
  = trace (final_state Plain.engine array_world (Plain.example_inputs false))
    ++ [created "undefined";
        SetOutput "version-id" None;
        SetOutput "version-url" None].
Proof.
  refine (proj1 (C10_no_validation_on_success Plain.engine array_world
                   (Plain.example_inputs false) (success "[]")
                   (final_state Plain.engine array_world
                      (Plain.example_inputs false))
                   (JArray []) "undefined" eq_refl _ _ eq_refl _ eq_refl)).
  - exists (started (Plain.example_inputs false)). split; reflexivity.
  - split; [discriminate | reflexivity].
  - discriminate.
Defined.

(** C10 as stated fails: the status is 201 and the body, [null], parses
    as JSON and has none of the fields, but reading [name] from [null]
    raises a TypeError, and the run fails with no output. *)
Lemma C10_no_validation_counterexample :
  supplies null_world (Plain.example_inputs false) /\
  final_response Plain.engine null_world (Plain.example_inputs false)
    (success "null")
    (final_state Plain.engine null_world (Plain.example_inputs false)) /\
  JSON_parse Plain.engine "null" = inr JNull /\
  run_trace Plain.engine null_world
  = trace (final_state Plain.engine null_world (Plain.example_inputs false))
    ++ [SetFailed
          "Action failed with error: Cannot read properties of null (reading 'name')"] /\
  succeeded (run_trace Plain.engine null_world) = false /\
  filter is_output (run_trace Plain.engine null_world) = [].
Proof.
  split; [reflexivity |]. split.
  - exists (started (Plain.example_inputs false)). split; reflexivity.
  - repeat split.
Qed.

(** ** Outputs *)

Lemma no_output_no_sets name tr :
  filter is_output tr = [] -> filter (sets name) tr = [].
Proof.
  induction tr as [| e tr IH]; [reflexivity |].
  destruct e; cbn; try exact IH. discriminate.
Qed.

Lemma run_well_ended E W : well_ended (run_trace E W).
Proof.
  destruct (run_path E W) as [e He | i e st1 Hs Hc | i st1 Hs Hc
                             | i st1 e st2 Hs Hp Hr | i r st2 Hs Hf].
  - left. reflexivity.
  - pose proof (check_existing_shape E W i (headers_of i)
                  (started i)) as Hsh.
    cbn zeta in Hsh. rewrite Hc in Hsh. cbn [fst snd trace posts started] in Hsh.
    destruct Hsh as (_ & evs & -> & _ & Hq).
    left. rewrite !filter_app, (quiet_no_output evs Hq). reflexivity.
  - pose proof (check_existing_shape E W i (headers_of i)
                  (started i)) as Hsh.
    cbn zeta in Hsh. rewrite Hc in Hsh. cbn [fst snd trace posts started] in Hsh.
    destruct Hsh as (_ & evs & -> & _ & pre & x & y & -> & Hq).
    right. exists (prelude i ++ pre), x, y. rewrite app_assoc.
    split; [reflexivity |]. rewrite quiet_app, Hq. reflexivity.
  - pose proof (loop_quiet E W i st1 (inl e) st2 Hp Hr) as (Hq & _).
    left. rewrite filter_app, (quiet_no_output _ Hq). reflexivity.
  - pose proof (final_response_quiet E W i r st2 Hf) as (Hq & _).
    destruct (classify_cases E r st2)
      as [[_ ->] | [_ [(m & _ & ->) | [(d & e & _ & _ & ->)
                                      | (d & shown & _ & _ & _ & ->)]]]].
    + left. rewrite filter_app, (quiet_no_output _ Hq), failure_report_outputs.
      reflexivity.
    + left. rewrite filter_app, (quiet_no_output _ Hq). reflexivity.
    + left. rewrite filter_app, (quiet_no_output _ Hq). reflexivity.
    + right. exists (trace st2 ++ [created shown]), (field d "id"), (field d "self").
      rewrite <- app_assoc. split; [reflexivity |].
      rewrite quiet_app, Hq. reflexivity.
Qed.

(** C7.  In every run, whatever the toolkit and the network answer: a run
    that fails has set no output, and each of version-id and version-url
    is set at most once; when outputs are set, they are the last two
    events of the run, and nothing before them failed. *)
Theorem C7_outputs_only_on_success E W :
  (failed (run_trace E W) = true -> filter is_output (run_trace E W) = []) /\
  length (filter (sets "version-id") (run_trace E W)) <= 1 /\
  length (filter (sets "version-url") (run_trace E W)) <= 1 /\
  well_ended (run_trace E W).
Proof.
  pose proof (run_well_ended E W) as Hw.
  split; [| split; [| split; [| exact Hw]]];
    destruct Hw as [Hnone | (pre & x & y & -> & Hq)].
  - intros _. exact Hnone.
  - rewrite failed_app, (quiet_not_failed pre Hq). discriminate.
  - rewrite (no_output_no_sets _ _ Hnone). cbn. lia.
  - rewrite filter_app, (no_output_no_sets _ _ (quiet_no_output pre Hq)).
    cbn. lia.
  - rewrite (no_output_no_sets _ _ Hnone). cbn. lia.
  - rewrite filter_app, (no_output_no_sets _ _ (quiet_no_output pre Hq)).
    cbn. lia.
Qed.

(** ** Credentials *)

Lemma public_trace_app tr1 tr2 :
  public_trace (tr1 ++ tr2) = public_trace tr1 ++ public_trace tr2.
Proof.
  induction tr1 as [| e tr1 IH]; [reflexivity |].
  cbn. destruct (public e); cbn; rewrite IH; reflexivity.
Qed.

Lemma same_emit e e' st st' :
  public e = public e' -> same st st' -> same (emit e st) (emit e' st').
Proof.
  intros He [Hp Ht]. split; [exact Hp |].
  rewrite !emit_trace, !public_trace_app, Ht. cbn. rewrite He. reflexivity.
Qed.

Lemma agree_ret {A : Type} (a : A) : agree (ret a) (ret a).
Proof. intros st st' H. split; [reflexivity | exact H]. Qed.

Lemma agree_lift {A : Type} (r : exn + A) : agree (lift r) (lift r).
Proof. intros st st' H. split; [reflexivity | exact H]. Qed.

Lemma agree_call e e' : public e = public e' -> agree (call e) (call e').
Proof.
  intros He st st' H. split; [reflexivity |]. apply same_emit; assumption.
Qed.

Lemma agree_bind {A B : Type} (c c' : M A) (k k' : A -> M B) :
  agree c c' -> (forall a, agree (k a) (k' a)) ->
  agree (bind c k) (bind c' k').
Proof.
  intros Hc Hk st st' H. unfold bind.
  destruct (Hc st st' H) as [Hr Hs].
  destruct (c st) as [[e | a] st1], (c' st') as [[e' | a'] st1'];
    cbn [fst snd] in *; try discriminate.
  - injection Hr as <-. split; [reflexivity | exact Hs].
  - injection Hr as <-. apply Hk. exact Hs.
Qed.

Lemma agree_try_catch {A : Type} (c c' : M A) (k k' : exn -> M A) :
  agree c c' -> (forall e, agree (k e) (k' e)) ->
  agree (try_catch c k) (try_catch c' k').
Proof.
  intros Hc Hk st st' H. unfold try_catch.
  destruct (Hc st st' H) as [Hr Hs].
  destruct (c st) as [[e | a] st1], (c' st') as [[e' | a'] st1'];
    cbn [fst snd] in *; try discriminate.
  - injection Hr as <-. apply Hk. exact Hs.
  - injection Hr as <-. split; [reflexivity | exact Hs].
Qed.

Lemma agree_if {A : Type} (b : bool) (c1 c1' c2 c2' : M A) :
  agree c1 c1' -> agree c2 c2' ->
  agree (if b then c1 else c2) (if b then c1' else c2').
Proof. destruct b; trivial. Qed.

Lemma agree_client_get W1 W2 url h1 h2 :
  same_answers W1 W2 ->
  hide_authorization h1 = hide_authorization h2 ->
  agree (client_get W1 url h1) (client_get W2 url h2).
Proof.
  intros [Hg _] Hh st st' H. unfold client_get. cbn [fst snd].
  split; [exact Hg |]. apply same_emit; [| exact H].
  cbn [public]. rewrite Hh. reflexivity.
Qed.

(** One pass of the loop shows the same in both runs. *)
Lemma iteration_agree W1 W2 url data h1 h2 maxRetries attempt st st' :
  same_answers W1 W2 ->
  hide_authorization h1 = hide_authorization h2 ->
  same st st' ->
  match iteration W1 url data h1 maxRetries attempt st,
        iteration W2 url data h2 maxRetries attempt st' with
  | Continue s, Continue s' => same s s'
  | Return (r, s), Return (r', s') => r = r' /\ same s s'
  | _, _ => False
  end.
Proof.
  intros [_ Hpost] Hh [Hp Ht]. unfold iteration, client_post.
  rewrite <- Hp, <- (Hpost (posts st)).
  assert (Hs : same {| posts := S (posts st);
                       trace := trace st ++ [HttpPost url data h1] |}
                    {| posts := S (posts st);
                       trace := trace st' ++ [HttpPost url data h2] |}).
  { split; [reflexivity |]. cbn [trace].
    rewrite !public_trace_app, Ht. cbn [public_trace public].
    rewrite Hh. reflexivity. }
  destruct (http_post W1 (posts st)) as [e | resp]; [split; trivial |].
  destruct (readBody resp); [split; trivial |].
  destruct ((status_of resp =? 429)%Z && (attempt <=? maxRetries)%nat).
  - apply same_emit; [reflexivity |]. apply same_emit; [reflexivity |].
    exact Hs.
  - split; trivial.
Qed.

Lemma retry_loop_agree W1 W2 url data h1 h2 maxRetries :
  same_answers W1 W2 ->
  hide_authorization h1 = hide_authorization h2 ->
  forall n attempt st st',
    maxRetries - attempt = n ->
    same st st' ->
    fst (retry_loop W1 url data h1 maxRetries attempt st)
    = fst (retry_loop W2 url data h2 maxRetries attempt st') /\
    same (snd (retry_loop W1 url data h1 maxRetries attempt st))
      (snd (retry_loop W2 url data h2 maxRetries attempt st')).
Proof.
  intros HW Hh. induction n as [| n IH]; intros attempt st st' Hn Hs;
    rewrite !retry_loop_step;
    pose proof (iteration_agree W1 W2 url data h1 h2 maxRetries (S attempt)
                  st st' HW Hh Hs) as Hi;
    pose proof (iteration_posts W1 url data h1 maxRetries (S attempt) st) as Hb;
    destruct (iteration W1 url data h1 maxRetries (S attempt) st)
      as [s | [r s]],
             (iteration W2 url data h2 maxRetries (S attempt) st')
      as [s' | [r' s']];
    try contradiction.
  - destruct Hb. lia.
  - destruct Hi as [-> Hs']. split; [reflexivity | exact Hs'].
  - apply IH; [destruct Hb; lia | exact Hi].
  - destruct Hi as [-> Hs']. split; [reflexivity | exact Hs'].
Qed.

Lemma agree_postWithRetry W1 W2 url data h1 h2 maxRetries :
  same_answers W1 W2 ->
  hide_authorization h1 = hide_authorization h2 ->
  agree (postWithRetry W1 url data h1 maxRetries)
    (postWithRetry W2 url data h2 maxRetries).
Proof.
  intros HW Hh st st' Hs. unfold postWithRetry.
  apply (retry_loop_agree W1 W2 url data h1 h2 maxRetries HW Hh
           maxRetries 0 st st' (Nat.sub_0_r _) Hs).
Qed.

(** Bring a goal [agree c c'] down to its calls. *)
Ltac agree_steps :=
  repeat first
    [ apply agree_ret
    | apply agree_lift
    | apply agree_call; reflexivity
    | apply agree_client_get; first [assumption | reflexivity]
    | apply agree_postWithRetry; first [assumption | reflexivity]
    | apply agree_bind; [| intros ?]
    | apply agree_try_catch; [| intros ?]
    | apply agree_if
    | match goal with
      | |- agree (match ?x with _ => _ end) _ => destruct x
      end ].

Lemma agree_check_existing E W1 W2 i1 i2 h1 h2 :
  same_answers W1 W2 ->
  hide_authorization h1 = hide_authorization h2 ->
  jiraBaseUrl i1 = jiraBaseUrl i2 ->
  jiraProjectKey i1 = jiraProjectKey i2 ->
  versionName i1 = versionName i2 ->
  checkIfExists i1 = checkIfExists i2 ->
  agree (check_existing E W1 i1 h1) (check_existing E W2 i2 h2).
Proof.
  intros HW Hh Hb Hk Hn Hc.
  unfold check_existing, findVersion, getProjectVersions, throw.
  rewrite <- Hb, <- Hk, <- Hn, <- Hc.
  change (fun st : state => (inl ?e, st)) with (@lift json (inl e)).
  agree_steps.
Qed.

Lemma agree_run_with E W1 W2 i1 i2 :
  same_answers W1 W2 ->
  jiraBaseUrl i1 = jiraBaseUrl i2 ->
  jiraProjectKey i1 = jiraProjectKey i2 ->
  versionName i1 = versionName i2 ->
  versionDescription i1 = versionDescription i2 ->
  released i1 = released i2 ->
  checkIfExists i1 = checkIfExists i2 ->
  agree (run_with E W1 i1) (run_with E W2 i2).
Proof.
  intros HW Hb Hk Hn Hd Hr Hc.
  unfold run_with, create, report_failure, report_created, payload.
  rewrite <- Hb, <- Hk, <- Hn, <- Hd, <- Hr.
  repeat first
    [ apply agree_check_existing; first [assumption | reflexivity]
    | progress agree_steps ].
Qed.

Lemma read_inputs_agree W1 W2 :
  same_but_credentials W1 W2 ->
  match fst (read_inputs W1 initial), fst (read_inputs W2 initial) with
  | inl e1, inl e2 => e1 = e2
  | inr i1, inr i2 =>
      jiraBaseUrl i1 = jiraBaseUrl i2 /\
      jiraProjectKey i1 = jiraProjectKey i2 /\
      versionName i1 = versionName i2 /\
      versionDescription i1 = versionDescription i2 /\
      released i1 = released i2 /\
      checkIfExists i1 = checkIfExists i2
  | _, _ => False
  end.
Proof.
  intros (Hpub & Hcred & Hbool).
  unfold read_inputs, bind, core_getInput, core_getBooleanInput, lift, ret.
  rewrite (Hpub "jira-base-url" true), (Hpub "jira-project-key" true),
    (Hpub "version-name" true), (Hpub "version-description" false)
    by (intros H; discriminate H).
  rewrite !Hbool.
  destruct (getInput W2 "jira-base-url" true); cbn; [reflexivity |].
  destruct (getInput W2 "jira-project-key" true); cbn; [reflexivity |].
  assert (Hcase : forall name,
             match getInput W1 name true, getInput W2 name true with
             | inl e1, inl e2 => e1 = e2
             | inr _, inr _ => True
             | _, _ => False
             end).
  { intros name.
    destruct (Hcred name true) as [-> | (v1 & v2 & -> & ->)]; [| exact I].
    destruct (getInput W2 name true); trivial. }
  pose proof (Hcase "jira-user-email") as He.
  pose proof (Hcase "jira-api-token") as Ht.
  destruct (getInput W1 "jira-user-email" true),
           (getInput W2 "jira-user-email" true);
    try contradiction; cbn; [exact He |].
  destruct (getInput W1 "jira-api-token" true),
           (getInput W2 "jira-api-token" true);
    try contradiction; cbn; [exact Ht |].
  destruct (getInput W2 "version-name" true); cbn; [reflexivity |].
  destruct (getInput W2 "version-description" false); cbn; [reflexivity |].
  destruct (getBooleanInput W2 "released" false); cbn; [reflexivity |].
  destruct (getBooleanInput W2 "check-if-exists" false); cbn; [reflexivity |].
  repeat split.
Qed.

Lemma log_of_public tr : log_of (public_trace tr) = log_of tr.
Proof.
  induction tr as [| e tr IH]; [reflexivity |].
  destruct e; cbn; rewrite ?IH; reflexivity.
Qed.

Lemma supplies_unique W i i' : supplies W i -> supplies W i' -> i = i'.
Proof. unfold supplies. intros H H'. congruence. Qed.

(** A run that got its inputs starts with the prelude. *)
Lemma run_starts_with_prelude E W i :
  supplies W i -> exists rest, run_trace E W = prelude i ++ rest.
Proof.
  intros Hs.
  assert (Hcheck : forall r st1,
             check_existing E W i (headers_of i)
               (started i) = (r, st1) ->
             exists evs, trace st1 = prelude i ++ evs).
  { intros r st1 Hc.
    pose proof (check_existing_shape E W i (headers_of i)
                  (started i)) as Hsh.
    cbn zeta in Hsh. rewrite Hc in Hsh. cbn [fst snd trace posts started] in Hsh.
    destruct Hsh as (_ & evs & Ht & _). exists evs. exact Ht. }
  assert (Hloop : forall st1 res st2,
             proceeds E W i st1 ->
             postWithRetry W (version_url i) (JSON_stringify E (payload i) 0)
               (headers_of i) 3 (emit (creating i) st1) = (res, st2) ->
             exists evs, trace st2 = prelude i ++ evs).
  { intros st1 res st2 Hp Hr.
    destruct (Hcheck _ _ Hp) as (evs & Ht).
    pose proof (retry_loop_trace W (version_url i)
                  (JSON_stringify E (payload i) 0) (headers_of i) 3 3 0
                  (emit (creating i) st1) eq_refl) as Hl.
    cbn zeta in Hl. unfold postWithRetry in Hr. rewrite Hr in Hl.
    cbn [snd] in Hl. destruct Hl as (evs' & Ht' & _).
    rewrite Ht', emit_trace, Ht, <- !app_assoc. eexists. reflexivity. }
  destruct (run_path E W) as [e He | i0 e st1 Hs0 Hc | i0 st1 Hs0 Hc
                             | i0 st1 e st2 Hs0 Hp Hr | i0 r st2 Hs0 Hf];
    try (pose proof (supplies_unique W i i0 Hs Hs0) as <-).
  - unfold supplies in Hs. rewrite Hs in He. discriminate He.
  - destruct (Hcheck _ _ Hc) as (evs & ->).
    rewrite <- app_assoc. eexists. reflexivity.
  - apply (Hcheck _ _ Hc).
  - destruct (Hloop _ _ _ Hp Hr) as (evs & ->).
    rewrite <- app_assoc. eexists. reflexivity.
  - destruct Hf as (st1 & Hp & Hr).
    destruct (Hloop _ _ _ Hp Hr) as (evs & Ht).
    destruct (classify_cases E r st2)
      as [[_ ->] | [_ [(m & _ & ->) | [(d & e & _ & _ & ->)
                                      | (d & shown & _ & _ & _ & ->)]]]];
      rewrite Ht, <- app_assoc; eexists; reflexivity.
Qed.

(** ** The loop, pass by pass *)

(** What one pass leaves behind, exactly. *)
Lemma iteration_shape W url data h maxRetries attempt st :
  match iteration W url data h maxRetries attempt st with
  | Continue st' =>
      attempt <= maxRetries /\
      st' = {| posts := S (posts st);
               trace := trace st ++ [HttpPost url data h;
                                     rate_limited attempt maxRetries;
                                     SetTimeout (backoff attempt)] |}
  | Return (_, st') => st' = posted url data h st
  end.
Proof.
  unfold iteration, client_post.
  destruct (http_post W (posts st)) as [e | resp]; [reflexivity |].
  destruct (readBody resp); [reflexivity |].
  destruct (Nat.leb_spec attempt maxRetries) as [Hle | Hgt].
  - destruct (status_of resp =? 429)%Z; cbn [andb]; [| reflexivity].
    split; [exact Hle |]. unfold rate_limited, backoff. trace_norm.
    reflexivity.
  - rewrite andb_false_r. reflexivity.
Qed.

(** However the answers fall, the loop leaves [k] rate-limited passes
    and one last POST, for some [k] within the budget. *)
Lemma retry_loop_shape W url data h maxRetries :
  forall n attempt st,
    maxRetries - attempt = n ->
    exists k,
      k <= n /\
      snd (retry_loop W url data h maxRetries attempt st)
      = {| posts := posts st + k + 1;
           trace := trace st
                    ++ retries_from url data h maxRetries attempt k
                    ++ [HttpPost url data h] |}.
Proof.
  induction n as [| n IH]; intros attempt st Hn;
    rewrite retry_loop_step;
    pose proof (iteration_shape W url data h maxRetries (S attempt) st) as Hi;
    destruct (iteration W url data h maxRetries (S attempt) st)
      as [st1 | [r st1]]; cbn [snd].
  - destruct Hi as [Hle _]. lia.
  - exists 0. split; [lia |]. subst st1. unfold posted. cbn [retries_from app].
    f_equal. lia.
  - destruct Hi as [Hle Hst].
    destruct (IH (S attempt) st1 ltac:(lia)) as (k & Hk & ->).
    subst st1.
    exists (S k). split; [lia |]. cbn [posts trace retries_from].
    rewrite <- app_assoc. cbn [app]. f_equal. lia.
  - exists 0. split; [lia |]. subst st1. unfold posted. cbn [retries_from app].
    f_equal. lia.
Qed.

(** [k] rate-limited answers within the budget take the loop [k] passes
    further. *)
Lemma retry_loop_rate_limited W url data h maxRetries (b : nat -> string) :
  forall k attempt st,
    attempt + k <= maxRetries ->
    (forall j, j < k -> http_post W (posts st + j) = answers 429 (b j)) ->
    retry_loop W url data h maxRetries attempt st
    = retry_loop W url data h maxRetries (attempt + k)
        {| posts := posts st + k;
           trace := trace st ++ retries_from url data h maxRetries attempt k |}.
Proof.
  intros k. revert b. induction k as [| k IH]; intros b attempt st Hle Hb.
  - cbn [retries_from]. rewrite app_nil_r, !Nat.add_0_r.
    destruct st; reflexivity.
  - rewrite retry_loop_step.
    erewrite iteration_retry;
      [| rewrite <- (Nat.add_0_r (posts st)); apply Hb; lia
       | reflexivity | reflexivity | lia].
    rewrite (IH (fun j => b (S j)) (S attempt)); [| lia |].
    + cbn [posts trace retries_from]. rewrite <- app_assoc. cbn [app].
      replace (S attempt + k) with (attempt + S k) by lia.
      replace (S (posts st) + k) with (posts st + S k) by lia.
      reflexivity.
    + intros j Hj. cbn [posts].
      replace (S (posts st) + j) with (posts st + S j) by lia.
      apply Hb. lia.
Qed.

Lemma waits_app tr1 tr2 : waits (tr1 ++ tr2) = waits tr1 ++ waits tr2.
Proof.
  induction tr1 as [| e tr1 IH]; [reflexivity |].
  destruct e; cbn; rewrite ?IH; reflexivity.
Qed.

Lemma waits_retries_from url data h maxRetries k :
  forall attempt,
    waits (retries_from url data h maxRetries attempt k)
    = map backoff (seq (S attempt) k).
Proof.
  induction k as [| k IH]; intros attempt; [reflexivity |].
  cbn [retries_from waits seq map]. rewrite IH. reflexivity.
Qed.

Lemma requests_retries_from url data h maxRetries k :
  forall attempt,
    filter is_request (retries_from url data h maxRetries attempt k)
    = repeat (HttpPost url data h) k.
Proof.
  induction k as [| k IH]; intros attempt; [reflexivity |].
  cbn. rewrite IH. reflexivity.
Qed.

Lemma quiet_retries_from url data h maxRetries k :
  forall attempt,
    quiet (retries_from url data h maxRetries attempt k) = true.
Proof.
  induction k as [| k IH]; intros attempt; [reflexivity |].
  cbn. apply IH.
Qed.

Lemma retry_loop_then_other W url data h maxRetries (b : nat -> string)
  k attempt st resp text :
  attempt + k <= maxRetries ->
  (forall j, j < k -> http_post W (posts st + j) = answers 429 (b j)) ->
  http_post W (posts st + k) = inr resp ->
  readBody resp = inr text ->
  status_of resp <> 429%Z ->
  retry_loop W url data h maxRetries attempt st
  = (inr {| status := status_of resp; body := text |},
     {| posts := posts st + k + 1;
        trace := trace st
                 ++ retries_from url data h maxRetries attempt k
                 ++ [HttpPost url data h] |}).
Proof.
  intros Hle Hb Hr Htext Hs.
  rewrite (retry_loop_rate_limited W url data h maxRetries b k attempt st Hle Hb).
  rewrite retry_loop_step.
  erewrite iteration_other; [| cbn [posts]; exact Hr | exact Htext | exact Hs].
  unfold posted. cbn [posts trace]. rewrite <- app_assoc.
  replace (S (posts st + k)) with (posts st + k + 1) by lia. reflexivity.
Qed.

(** X6.  The retry schedule for a budget of at most 21 retries, where
    the delays are exact (see [iteration]): when the loop, its counter at
    [attempt], is answered [k] times with status 429 while the budget
    lasts and then with any other status, it sends exactly [k + 1] POSTs,
    waits 2^j * 1000 ms after the attempt numbered [j] and no longer, and
    returns the last answer unchanged. *)
Theorem X6_retry_schedule W url data h maxRetries (b : nat -> string)
  k attempt st resp text :
  maxRetries <= 21 ->
  attempt + k <= maxRetries ->
  (forall j, j < k -> http_post W (posts st + j) = answers 429 (b j)) ->
  http_post W (posts st + k) = inr resp ->
  readBody resp = inr text ->
  status_of resp <> 429%Z ->
  retry_loop W url data h maxRetries attempt st
  = (inr {| status := status_of resp; body := text |},
     {| posts := posts st + k + 1;
        trace := trace st
                 ++ retries_from url data h maxRetries attempt k
                 ++ [HttpPost url data h] |}) /\
  waits (retries_from url data h maxRetries attempt k)
  = map backoff (seq (S attempt) k).
Proof.
  intros _ Hle Hb Hr Htext Hs. split; [| apply waits_retries_from].
  apply (retry_loop_then_other W url data h maxRetries b k attempt st resp text);
    assumption.
Qed.

Lemma X6_retry_schedule_witness :
  postWithRetry created_world "u" "d" [] 3 initial
  = (inr {| status := 201; body := version_text |},
     {| posts := 2;
        trace := [HttpPost "u" "d" [];
                  Warning "Rate limit exceeded, retrying in 2000ms (1/3)";
                  SetTimeout 2000;
                  HttpPost "u" "d" []] |}).
Proof.
  refine (proj1 (X6_retry_schedule created_world "u" "d" [] 3
                   (fun _ => "slow down") 1 0 initial
                   {| statusCode := Some 201%Z; readBody := inr version_text |}
                   version_text _ _ _ eq_refl eq_refl _)).
  - apply Nat.leb_le. reflexivity.
  - apply le_S, le_S, le_n.
  - intros j Hj. destruct j as [| j]; [reflexivity |].
    exfalso. exact (Nat.nlt_0_r j (proj2 (Nat.succ_lt_mono j 0) Hj)).
  - intros H. discriminate H.
Defined.

(** X7.  Exhaustion for a retry budget [maxRetries] of at most 21, where
    the delays are exact (see [iteration]): when the first
    [maxRetries + 1] POSTs are all answered with status 429, the loop
    sends exactly [maxRetries + 1] POSTs, waits [maxRetries] times and
    returns the last 429 answer; with a budget of 0 that is one POST and
    no wait. *)
Theorem X7_budget_exhausted W url data h maxRetries (b : nat -> string) st :
  maxRetries <= 21 ->
  (forall j, j < S maxRetries ->
             http_post W (posts st + j) = answers 429 (b j)) ->
  postWithRetry W url data h maxRetries st
  = (inr {| status := 429; body := b maxRetries |},
     {| posts := posts st + maxRetries + 1;
        trace := trace st
                 ++ retries_from url data h maxRetries 0 maxRetries
                 ++ [HttpPost url data h] |}) /\
  length (waits (retries_from url data h maxRetries 0 maxRetries))
  = maxRetries.
Proof.
  intros _ Hb. split.
  - unfold postWithRetry.
    rewrite (retry_loop_rate_limited W url data h maxRetries b maxRetries 0 st
               (le_n _) (fun j Hj => Hb j (Nat.lt_lt_succ_r _ _ Hj))).
    rewrite retry_loop_step.
    erewrite iteration_spent;
      [| cbn [posts]; apply Hb; lia | reflexivity | cbn; lia].
    unfold posted. cbn [posts trace status_of statusCode].
    rewrite <- app_assoc.
    replace (S (posts st + maxRetries)) with (posts st + maxRetries + 1) by lia.
    reflexivity.
  - rewrite waits_retries_from, length_map, length_seq. reflexivity.
Qed.

Lemma X7_budget_exhausted_witness :
  postWithRetry rate_limited_world "u" "d" [] 2 initial
  = (inr {| status := 429; body := "slow down" |},
     {| posts := 3;
        trace := [HttpPost "u" "d" [];
                  Warning "Rate limit exceeded, retrying in 2000ms (1/2)";
                  SetTimeout 2000;
                  HttpPost "u" "d" [];
                  Warning "Rate limit exceeded, retrying in 4000ms (2/2)";
                  SetTimeout 4000;
                  HttpPost "u" "d" []] |}).
Proof.
  refine (proj1 (X7_budget_exhausted rate_limited_world "u" "d" [] 2
                   four_bodies initial _ _)).
  - apply Nat.leb_le. reflexivity.
  - intros j Hj.
    do 3 (destruct j as [| j]; [reflexivity |]).
    apply Nat.ltb_lt in Hj. discriminate Hj.
Defined.

(** ** The anatomy of a run *)

(** The lookup phase, exactly: nothing when the check is off; one GET
    when it is on, followed by the confirmation and the two outputs when a
    record was found. *)
Lemma check_existing_events E W i st :
  (checkIfExists i = false /\
   check_existing E W i (headers_of i) st = (inr false, st)) \/
  (checkIfExists i = true /\
   snd (check_existing E W i (headers_of i) st)
   = emit (HttpGet (versions_url i) (headers_of i)) st /\
   fst (check_existing E W i (headers_of i) st) <> inr true) \/
  (checkIfExists i = true /\
   exists rec,
     named (versionName i) rec = true /\
     check_existing E W i (headers_of i) st
     = (inr true,
        {| posts := posts st;
           trace := trace st ++ [HttpGet (versions_url i) (headers_of i);
                                 already_exists i;
                                 SetOutput "version-id" (field rec "id");
                                 SetOutput "version-url" (field rec "self")] |})).
Proof.
  destruct (checkIfExists i) eqn:Hc.
  2:{ left. split; [reflexivity |]. apply check_existing_off. exact Hc. }
  right. unfold check_existing. rewrite Hc. unfold bind.
  rewrite findVersion_state.
  destruct (fst (findVersion E W (jiraBaseUrl i) (jiraProjectKey i)
                   (versionName i) (headers_of i) initial))
    as [e | [v |]] eqn:Hres.
  - left. split; [reflexivity |]. split; [reflexivity | discriminate].
  - pose proof (findVersion_named _ _ _ _ _ _ _ _ Hres) as Hn.
    pose proof (named_truthy _ _ Hn) as Hv.
    right. split; [reflexivity |]. exists v. split; [exact Hn |].
    rewrite Hv. unfold call, lift, ret, bind.
    rewrite !(get_field v) by (apply truthy_not_null; exact Hv).
    unfold already_exists, versions_url. trace_norm. reflexivity.
  - left. split; [reflexivity |]. split; [reflexivity | discriminate].
Qed.

Lemma supplied_not_unsupplied W e :
  fst (read_inputs W initial) = inl e -> forall i, ~ supplies W i.
Proof. intros He i Hs. unfold supplies in Hs. rewrite Hs in He. discriminate. Qed.

Lemma ending_classify E r st :
  exists tail,
    trace (snd (try_catch (classify E r) (on_error E) st)) = trace st ++ tail /\
    ending E tail.
Proof.
  destruct (classify_cases E r st)
    as [[Hout ->] | [_ [(m & _ & ->) | [(d & e & _ & _ & ->)
                                       | (d & shown & _ & _ & _ & ->)]]]];
    eexists; (split; [reflexivity |]).
  - apply ending_refused. exact Hout.
  - apply ending_thrown.
  - apply ending_thrown.
  - apply ending_created.
Qed.

(** Every run has one of the four shapes. *)
Lemma run_anatomy E W : anatomy E W (run_trace E W).
Proof.
  assert (Hloop : forall i st1 res st2,
             proceeds E W i st1 ->
             postWithRetry W (version_url i) (JSON_stringify E (payload i) 0)
               (headers_of i) 3 (emit (creating i) st1) = (res, st2) ->
             exists k,
               k <= 3 /\
               trace st2
               = prelude i ++ lookup_request i
                 ++ creating i
                 :: retries_from (version_url i)
                      (JSON_stringify E (payload i) 0) (headers_of i) 3 0 k
                 ++ [create_request E i]).
  { intros i st1 res st2 Hp Hr. unfold proceeds in Hp.
    assert (Hst1 : trace st1 = prelude i ++ lookup_request i).
    { unfold lookup_request.
      destruct (check_existing_events E W i (started i))
        as [[Hc H] | [(Hc & Hs & _) | (Hc & rec & _ & H)]];
        rewrite Hc.
      - rewrite Hp in H. injection H as ->. reflexivity.
      - rewrite Hp in Hs. cbn [snd] in Hs. subst st1. reflexivity.
      - rewrite Hp in H. discriminate H. }
    destruct (retry_loop_shape W (version_url i)
                (JSON_stringify E (payload i) 0) (headers_of i) 3 3 0
                (emit (creating i) st1) eq_refl) as (k & Hk & Hsh).
    unfold postWithRetry in Hr. rewrite Hr in Hsh. cbn [snd] in Hsh.
    exists k. split; [exact Hk |]. subst st2. cbn [trace].
    rewrite emit_trace, Hst1, <- !app_assoc. reflexivity. }
  destruct (run_path E W) as [e He | i e st1 Hs Hc | i st1 Hs Hc
                             | i st1 e st2 Hs Hp Hr | i r st2 Hs Hf].
  - apply anatomy_no_inputs. exact (supplied_not_unsupplied W e He).
  - destruct (check_existing_events E W i (started i))
      as [[_ H] | [(Hon & Hst & _) | (_ & rec & _ & H)]];
      try (rewrite Hc in H; discriminate H).
    rewrite Hc in Hst. cbn [snd] in Hst. subst st1.
    rewrite emit_trace. cbn [trace started]. rewrite <- app_assoc.
    apply anatomy_lookup_failed; assumption.
  - destruct (check_existing_events E W i (started i))
      as [[_ H] | [(_ & _ & Hno) | (Hon & rec & _ & H)]].
    + rewrite Hc in H. discriminate H.
    + rewrite Hc in Hno. contradiction Hno. reflexivity.
    + rewrite H in Hc. apply (f_equal snd) in Hc. cbn [snd] in Hc.
      subst st1. cbn [trace started posts].
      apply anatomy_existing; assumption.
  - destruct (Hloop i st1 (inl e) st2 Hp Hr) as (k & Hk & ->).
    rewrite <- !app_assoc. cbn [app]. rewrite <- app_assoc. cbn [app].
    apply anatomy_creation; [exact Hs | exact Hk | apply ending_thrown].
  - destruct Hf as (st1 & Hp & Hr).
    destruct (Hloop i st1 (inr r) st2 Hp Hr) as (k & Hk & Ht).
    destruct (ending_classify E r st2) as (tail & -> & Hend).
    rewrite Ht, <- !app_assoc. cbn [app]. rewrite <- app_assoc. cbn [app].
    apply anatomy_creation; assumption.
Qed.

Lemma posts_retries_from url data h maxRetries k :
  forall attempt,
    filter is_post (retries_from url data h maxRetries attempt k)
    = repeat (HttpPost url data h) k.
Proof.
  induction k as [| k IH]; intros attempt; [reflexivity |].
  cbn. rewrite IH. reflexivity.
Qed.

Lemma failure_report_split E r :
  exists errs,
    failure_report E r = errs ++ [SetFailed (http_failure (status r))] /\
    quiet errs = true /\ waits errs = [] /\
    filter is_request errs = [] /\ filter is_post errs = [].
Proof.
  unfold failure_report.
  destruct (JSON_parse E (body r)) as [m | parsed].
  - exists [ErrorLog "Failed to create Jira version:";
            ErrorLog ("- Status: HTTP " ++ string_of_Z (status r))%string;
            ErrorLog "- Raw response:"; ErrorLog (body r)].
    repeat split.
  - exists [ErrorLog "Failed to create Jira version:";
            ErrorLog ("- Status: HTTP " ++ string_of_Z (status r))%string;
            ErrorLog "- Error details:"; ErrorLog (JSON_stringify E parsed 2)].
    repeat split.
Qed.

(** An ending is a single failure after error lines, or the confirmation
    and the two outputs; it sends nothing and waits for nothing. *)
Lemma ending_split E tail :
  ending E tail ->
  ((exists pre text, tail = pre ++ [SetFailed text] /\ quiet pre = true) \/
   (exists pre x y,
       tail = pre ++ [SetOutput "version-id" x; SetOutput "version-url" y] /\
       quiet pre = true)) /\
  waits tail = [] /\ filter is_request tail = [] /\ filter is_post tail = [].
Proof.
  intros [text | r Hout | shown x y].
  - split; [| repeat split]. left. exists [], text. split; reflexivity.
  - destruct (failure_report_split E r) as (errs & -> & Hq & Hw & Hr & Hp).
    split; [| rewrite waits_app, !filter_app, Hw, Hr, Hp; repeat split].
    left. exists errs, (http_failure (status r)). split; [reflexivity | exact Hq].
  - split; [| repeat split]. right. exists [created shown], x, y.
    split; reflexivity.
Qed.

Lemma lookup_request_facts i :
  quiet (lookup_request i) = true /\ waits (lookup_request i) = [] /\
  filter is_post (lookup_request i) = [] /\
  filter is_request (lookup_request i) = lookup_request i.
Proof. unfold lookup_request. destruct (checkIfExists i); repeat split. Qed.

Lemma creation_cut E i k tail :
  prelude i ++ lookup_request i
  ++ creating i
  :: retries_from (version_url i) (JSON_stringify E (payload i) 0)
       (headers_of i) 3 0 k
  ++ create_request E i :: tail
  = creation_front E i k ++ tail.
Proof.
  unfold creation_front. rewrite <- !app_assoc. cbn [app].
  rewrite <- app_assoc. reflexivity.
Qed.

Lemma creation_front_facts E i k :
  quiet (creation_front E i k) = true /\
  waits (creation_front E i k) = map backoff (seq 1 k) /\
  filter is_post (creation_front E i k) = repeat (create_request E i) (S k) /\
  filter is_request (creation_front E i k)
  = lookup_request i ++ repeat (create_request E i) (S k).
Proof.
  destruct (lookup_request_facts i) as (Hq & Hw & Hp & Hr).
  unfold creation_front.
  change (prelude i ++ ?l) with
    (SetSecret (jiraApiToken i) :: SetSecret (jiraUserEmail i)
     :: Debug "Secrets masked in logs"
     :: Debug ("Initializing HTTP client for " ++ jiraBaseUrl i)%string :: l).
  repeat split.
  - cbn [quiet forallb is_output is_failure orb negb andb].
    change (forallb _ ?l) with (quiet l).
    rewrite quiet_app, Hq. cbn [andb quiet forallb creating is_output is_failure orb negb].
    change (forallb _ ?l) with (quiet l).
    rewrite quiet_app, quiet_retries_from. reflexivity.
  - cbn [waits]. rewrite waits_app, Hw. cbn [app waits creating].
    rewrite waits_app, waits_retries_from. cbn. apply app_nil_r.
  - cbn [filter is_post]. rewrite filter_app, Hp. cbn [app filter creating is_post].
    rewrite filter_app, posts_retries_from. cbn [filter create_request is_post].
    unfold create_request. rewrite <- repeat_cons. reflexivity.
  - cbn [filter is_request is_get is_post orb].
    rewrite filter_app, Hr. cbn [filter creating is_request is_get is_post orb].
    rewrite filter_app, requests_retries_from.
    cbn [filter create_request is_request is_get is_post orb].
    unfold create_request. rewrite <- repeat_cons. reflexivity.
Qed.

(** X9.  Every run has exactly one outcome: either it ends with its one
    and only call of [core.setFailed], having set no output, or it never
    fails and ends with the two outputs, version-id then version-url.  A
    run that does not fail has therefore always set both outputs. *)
Theorem X9_one_outcome E W :
  ((exists pre text,
       run_trace E W = pre ++ [SetFailed text] /\ quiet pre = true) \/
   (exists pre x y,
       run_trace E W
       = pre ++ [SetOutput "version-id" x; SetOutput "version-url" y] /\
       quiet pre = true)) /\
  (failed (run_trace E W) = true ->
   length (filter is_failure (run_trace E W)) = 1) /\
  (succeeded (run_trace E W) = true ->
   length (filter is_output (run_trace E W)) = 2).
Proof.
  assert (Hnf : forall pre, quiet pre = true -> filter is_failure pre = []).
  { induction pre as [| e pre IH]; [reflexivity |].
    cbn. intros H. apply andb_prop in H as [He Hpre].
    rewrite (IH Hpre). destruct e; cbn in *; congruence. }
  assert (Hcases :
            (exists pre text,
                run_trace E W = pre ++ [SetFailed text] /\ quiet pre = true) \/
            (exists pre x y,
                run_trace E W
                = pre ++ [SetOutput "version-id" x; SetOutput "version-url" y] /\
                quiet pre = true)).
  { destruct (run_anatomy E W) as [text Hno | i text Hs Hc | i x y Hs Hc
                                  | i k tail Hs Hk Hend].
    - left. exists [], text. split; reflexivity.
    - left. exists (prelude i ++ [HttpGet (versions_url i) (headers_of i)]), text.
      rewrite <- app_assoc. split; reflexivity.
    - right.
      exists (prelude i ++ [HttpGet (versions_url i) (headers_of i);
                            already_exists i]), x, y.
      rewrite <- app_assoc. split; reflexivity.
    - rewrite creation_cut.
      destruct (creation_front_facts E i k) as (Hq & _).
      destruct (ending_split E tail Hend)
        as ([(pre & text & -> & Hpre) | (pre & x & y & -> & Hpre)] & _).
      + left. exists (creation_front E i k ++ pre), text.
        rewrite app_assoc, quiet_app, Hq, Hpre. split; reflexivity.
      + right. exists (creation_front E i k ++ pre), x, y.
        rewrite app_assoc, quiet_app, Hq, Hpre. split; reflexivity. }
  split; [exact Hcases |].
  destruct Hcases as [(pre & text & -> & Hq) | (pre & x & y & -> & Hq)].
  - split.
    + intros _. rewrite filter_app, (Hnf pre Hq). reflexivity.
    + unfold succeeded. rewrite failed_app. cbn. rewrite orb_true_r.
      discriminate.
  - split.
    + rewrite failed_app, (quiet_not_failed pre Hq). discriminate.
    + intros _. rewrite filter_app, (quiet_no_output pre Hq). reflexivity.
Qed.

Lemma anatomy_requests E W tr i :
  anatomy E W tr ->
  supplies W i ->
  exists n,
    n <= 4 /\
    filter is_request tr = lookup_request i ++ repeat (create_request E i) n /\
    (checkIfExists i = false -> 1 <= n).
Proof.
  intros Ha Hs.
  destruct Ha as [text Hno | i0 text Hs0 Hc | i0 x y Hs0 Hc
                 | i0 k tail Hs0 Hk Hend];
    try (pose proof (supplies_unique W i i0 Hs Hs0) as <-).
  - destruct (Hno i Hs).
  - exists 0. split; [lia |]. unfold lookup_request. rewrite Hc.
    split; [reflexivity | congruence].
  - exists 0. split; [lia |]. unfold lookup_request. rewrite Hc.
    split; [reflexivity | congruence].
  - exists (S k). split; [lia |]. rewrite creation_cut, filter_app.
    destruct (creation_front_facts E i k) as (_ & _ & _ & ->).
    destruct (ending_split E tail Hend) as (_ & _ & -> & _).
    rewrite app_nil_r. split; [reflexivity | lia].
Qed.

(** X10.  The requests of a run that got its inputs: at most one GET,
    sent only when check-if-exists is on, to
    <base>/rest/api/3/project/<key>/versions and before every POST; then
    between zero and four POSTs, all to <base>/rest/api/3/version with the
    same body, the serialised payload; every request carries the same
    three headers.  URLs are plain concatenations of the inputs. *)
Theorem X10_requests E W i :
  supplies W i ->
  exists n,
    n <= 4 /\
    filter is_request (run_trace E W)
    = lookup_request i ++ repeat (create_request E i) n /\
    (checkIfExists i = false -> 1 <= n).
Proof.
  intros Hs. apply (anatomy_requests E W (run_trace E W) i (run_anatomy E W) Hs).
Qed.

Lemma X10_requests_witness :
  exists n,
    n <= 4 /\
    filter is_request (run_trace Plain.engine unlisted_world)
    = lookup_request (Plain.example_inputs true)
      ++ repeat (create_request Plain.engine (Plain.example_inputs true)) n /\
    (checkIfExists (Plain.example_inputs true) = false -> 1 <= n).
Proof.
  exact (X10_requests Plain.engine unlisted_world (Plain.example_inputs true)
           eq_refl).
Defined.

Lemma beats_app tr1 tr2 : beats (tr1 ++ tr2) = beats tr1 ++ beats tr2.
Proof.
  induction tr1 as [| e tr1 IH]; [reflexivity |].
  destruct e; cbn; rewrite ?IH; reflexivity.
Qed.

Lemma ending_beats E tail : ending E tail -> beats tail = [].
Proof.
  intros [text | r Hout | shown x y]; try reflexivity.
  unfold failure_report. destruct (JSON_parse E (body r)); reflexivity.
Qed.

Lemma creation_front_beats E i k :
  k <= 3 -> beats (creation_front E i k) = firstn (2 * k + 1) cadence.
Proof.
  intros Hk. unfold creation_front.
  rewrite beats_app. change (beats (prelude i)) with (@nil beat).
  rewrite beats_app.
  replace (beats (lookup_request i)) with (@nil beat)
    by (unfold lookup_request; destruct (checkIfExists i); reflexivity).
  cbn [app beats creating]. rewrite beats_app.
  do 4 (destruct k as [| k]; [reflexivity |]). lia.
Qed.

(** X13.  The waits of a run: there is one wait between each POST and
    the next and none elsewhere, and the delays are 2000, 4000 and 8000
    milliseconds in this order, as far as the run gets; no run waits more
    than three times.  Read in order, the POSTs and waits of a run are
    POST, wait 2000, POST, wait 4000, POST, wait 8000, POST, cut after one
    of its POSTs, or there are none. *)
Theorem X13_waits E W :
  (beats (run_trace E W) = [] \/
   exists k, k <= 3 /\ beats (run_trace E W) = firstn (2 * k + 1) cadence) /\
  waits (run_trace E W)
  = firstn (length (waits (run_trace E W))) [2000; 4000; 8000]%Z /\
  length (waits (run_trace E W))
  = pred (length (filter is_post (run_trace E W))) /\
  length (waits (run_trace E W)) <= 3.
Proof.
  destruct (run_anatomy E W) as [text Hno | i text Hs Hc | i x y Hs Hc
                                | i k tail Hs Hk Hend].
  - split; [left; reflexivity |]. repeat split. cbn. lia.
  - split; [left; reflexivity |]. repeat split. cbn. lia.
  - split; [left; reflexivity |]. repeat split. cbn. lia.
  - rewrite creation_cut. split.
    + right. exists k. split; [exact Hk |].
      rewrite beats_app, (ending_beats E tail Hend), app_nil_r.
      apply creation_front_beats. exact Hk.
    + rewrite waits_app, filter_app.
      destruct (creation_front_facts E i k) as (_ & -> & -> & _).
      destruct (ending_split E tail Hend) as (_ & -> & _ & ->).
      rewrite !app_nil_r, length_map, length_seq, repeat_length.
      split; [| split; [reflexivity | exact Hk]].
      do 4 (destruct k as [| k]; [reflexivity |]). lia.
Qed.

(** ** The paths of a run, one by one *)

Lemma proceeds_posts E W i st1 : proceeds E W i st1 -> posts st1 = 0.
Proof.
  intros Hp.
  pose proof (check_existing_shape E W i (headers_of i) (started i)) as Hc.
  cbn zeta in Hc. unfold proceeds in Hp. rewrite Hp in Hc. apply Hc.
Qed.

(** A run that enters the creation phase in state [st1] goes on with the
    announcement, the attempts and an ending. *)
Lemma run_proceeds E W i st1 :
  supplies W i ->
  proceeds E W i st1 ->
  exists k tail,
    k <= 3 /\ ending E tail /\
    run_trace E W
    = trace st1
      ++ creating i
      :: retries_from (version_url i) (JSON_stringify E (payload i) 0)
           (headers_of i) 3 0 k
      ++ create_request E i :: tail.
Proof.
  intros Hs Hp. unfold run_trace. rewrite (run_supplied E W i Hs).
  unfold try_catch. rewrite run_with_start. unfold bind at 1.
  unfold proceeds in Hp. rewrite Hp. rewrite create_eq.
  destruct (retry_loop_shape W (version_url i)
              (JSON_stringify E (payload i) 0) (headers_of i) 3 3 0
              (emit (creating i) st1) eq_refl) as (k & Hk & Hsh).
  unfold postWithRetry.
  destruct (retry_loop W (version_url i) _ (headers_of i) 3 0 _)
    as [[e | r] st2]; cbn [snd] in Hsh; subst st2; exists k.
  - eexists. split; [exact Hk |]. split; [apply ending_thrown |].
    unfold call. cbn [snd]. rewrite emit_trace. cbn [trace].
    rewrite emit_trace, <- !app_assoc. cbn [app].
    rewrite <- ?app_assoc. reflexivity.
  - match goal with
    | |- context [classify E r ?s] =>
        destruct (ending_classify E r s) as (tail & Ht & Hend)
      end.
    exists tail. split; [exact Hk |]. split; [exact Hend |].
    unfold try_catch, on_error in Ht. rewrite Ht. cbn [trace].
    rewrite emit_trace, <- !app_assoc. cbn [app].
    rewrite <- ?app_assoc. reflexivity.
Qed.

Lemma get_of_requests tr :
  filter is_get tr = filter is_get (filter is_request tr).
Proof.
  induction tr as [| e tr IH]; [reflexivity |].
  destruct e; cbn; rewrite <- ?IH; reflexivity.
Qed.

Lemma first_attempt url data h maxRetries k tail :
  exists rest,
    retries_from url data h maxRetries 0 k ++ HttpPost url data h :: tail
    = HttpPost url data h :: rest.
Proof.
  destruct k as [| k]; cbn [retries_from app]; eexists; reflexivity.
Qed.

(** X1.  With check-if-exists off, the listing endpoint is never called:
    the run registers the secrets, announces the creation and sends the
    first POST at once, whatever follows. *)
Theorem X1_no_lookup_when_off E W i :
  supplies W i ->
  checkIfExists i = false ->
  filter is_get (run_trace E W) = [] /\
  exists rest,
    run_trace E W = prelude i ++ creating i :: create_request E i :: rest.
Proof.
  intros Hs Hc. split.
  - destruct (anatomy_requests E W _ i (run_anatomy E W) Hs) as (n & _ & Hr & _).
    rewrite get_of_requests, Hr. unfold lookup_request. rewrite Hc.
    cbn [app]. unfold create_request. clear Hr.
    induction n as [| n IH]; [reflexivity | exact IH].
  - destruct (run_proceeds E W i (started i) Hs (proceeds_unchecked E W i Hc))
      as (k & tail & _ & _ & ->).
    destruct (first_attempt (version_url i) (JSON_stringify E (payload i) 0)
                (headers_of i) 3 k tail) as (rest & Hrest).
    unfold create_request. rewrite Hrest. exists rest. reflexivity.
Qed.

Lemma X1_no_lookup_when_off_witness :
  filter is_get (run_trace Plain.engine created_world) = [] /\
  exists rest,
    run_trace Plain.engine created_world
    = prelude (Plain.example_inputs false)
      ++ creating (Plain.example_inputs false)
      :: create_request Plain.engine (Plain.example_inputs false) :: rest.
Proof.
  exact (X1_no_lookup_when_off Plain.engine created_world
           (Plain.example_inputs false) eq_refl eq_refl).
Defined.

(** X2.  With check-if-exists on, a listing answered with status 200
    whose body parses to an array that holds no [null] and no record with
    the requested name (the empty array, for one) leads to creation: one
    GET, then the announcement and the first POST. *)
Theorem X2_lookup_miss_creates E W i resp text items :
  supplies W i ->
  checkIfExists i = true ->
  http_get W = inr resp ->
  readBody resp = inr text ->
  status_of resp = 200%Z ->
  JSON_parse E text = inr (JArray items) ->
  (forall v, In v items -> v <> JNull /\ named (versionName i) v = false) ->
  exists rest,
    run_trace E W
    = prelude i
      ++ HttpGet (versions_url i) (headers_of i)
      :: creating i :: create_request E i :: rest.
Proof.
  intros Hs Hc Hg Hb Hst Hp Hitems.
  destruct (run_proceeds E W i _ Hs
              (proceeds_unlisted E W i resp text items Hc Hg Hb Hst Hp Hitems))
    as (k & tail & _ & _ & ->).
  destruct (first_attempt (version_url i) (JSON_stringify E (payload i) 0)
              (headers_of i) 3 k tail) as (rest & Hrest).
  unfold create_request. rewrite Hrest. exists rest. reflexivity.
Qed.

Lemma X2_lookup_miss_creates_witness :
  exists rest,
    run_trace Plain.engine unlisted_world
    = prelude (Plain.example_inputs true)
      ++ HttpGet (versions_url (Plain.example_inputs true))
           (headers_of (Plain.example_inputs true))
      :: creating (Plain.example_inputs true)
      :: create_request Plain.engine (Plain.example_inputs true) :: rest.
Proof.
  refine (X2_lookup_miss_creates Plain.engine unlisted_world
            (Plain.example_inputs true)
            {| statusCode := Some 200%Z; readBody := inr "[]" |} "[]" []
            eq_refl eq_refl eq_refl eq_refl eq_refl eq_refl _).
  intros v [].
Defined.

(** X3.  A listing request that faults, while it is sent or while its
    body is read, is fatal: the run fails with the message of the fault,
    sends no POST and sets no output. *)
Theorem X3_lookup_fault_is_fatal E W i e :
  supplies W i ->
  checkIfExists i = true ->
  (http_get W = inl e \/
   exists resp, http_get W = inr resp /\ readBody resp = inl e) ->
  run_trace E W
  = prelude i
    ++ [HttpGet (versions_url i) (headers_of i);
        SetFailed (action_failed (message E e))].
Proof.
  intros Hs Hc Hfault.
  unfold run_trace. rewrite (run_supplied E W i Hs). unfold try_catch.
  rewrite run_with_start. unfold bind.
  assert (H : check_existing E W i (headers_of i) (started i)
              = (inl e, emit (HttpGet (versions_url i) (headers_of i))
                          (started i))).
  { unfold check_existing, findVersion, getProjectVersions, bind, client_get,
      lift. rewrite Hc.
    destruct Hfault as [-> | (resp & -> & ->)]; reflexivity. }
  rewrite H. reflexivity.
Qed.

Lemma X3_lookup_fault_is_fatal_witness :
  run_trace Plain.engine unreachable_world
  = prelude (Plain.example_inputs true)
    ++ [HttpGet (versions_url (Plain.example_inputs true))
          (headers_of (Plain.example_inputs true));
        SetFailed
          "Action failed with error: getaddrinfo ENOTFOUND x.atlassian.net"].
Proof.
  exact (X3_lookup_fault_is_fatal Plain.engine unreachable_world
           (Plain.example_inputs true)
           (Error "getaddrinfo ENOTFOUND x.atlassian.net")
           eq_refl eq_refl (or_introl eq_refl)).
Defined.

(** X4.  A listing answered with status 200 is trusted to be a JSON
    array: when its body is no JSON the run fails with the parser's
    message, and when it parses to anything but an array the run fails
    with the TypeError of calling [find] on it; in both cases no POST is
    sent and no output is set. *)
Theorem X4_listing_must_be_an_array E W i resp text :
  supplies W i ->
  checkIfExists i = true ->
  http_get W = inr resp ->
  readBody resp = inr text ->
  status_of resp = 200%Z ->
  (forall m,
      JSON_parse E text = inl m ->
      run_trace E W
      = prelude i ++ [HttpGet (versions_url i) (headers_of i);
                      SetFailed (action_failed m)]) /\
  (forall v,
      JSON_parse E text = inr v ->
      (forall items, v <> JArray items) ->
      run_trace E W
      = prelude i
        ++ [HttpGet (versions_url i) (headers_of i);
            SetFailed (action_failed (type_error_message E (find_error v)))]).
Proof.
  intros Hs Hc Hg Hb Hst.
  assert (Hrun : forall e,
             check_existing E W i (headers_of i) (started i)
             = (inl e, emit (HttpGet (versions_url i) (headers_of i))
                         (started i)) ->
             run_trace E W
             = prelude i ++ [HttpGet (versions_url i) (headers_of i);
                             SetFailed (action_failed (message E e))]).
  { intros e H. unfold run_trace. rewrite (run_supplied E W i Hs).
    unfold try_catch. rewrite run_with_start. unfold bind. rewrite H.
    reflexivity. }
  split.
  - intros m Hp. apply (Hrun (SyntaxError m)).
    unfold check_existing, findVersion, getProjectVersions, bind, client_get,
      lift, throw, JSON_parse_.
    rewrite Hc, Hg, Hb, Hst, Hp. reflexivity.
  - intros v Hp Hv. apply (Hrun (TypeError (find_error v))).
    unfold check_existing, findVersion, getProjectVersions, bind, client_get,
      lift, throw, JSON_parse_.
    rewrite Hc, Hg, Hb, Hst, Hp. cbn [Z.eqb Pos.eqb negb].
    destruct v; try reflexivity. destruct (Hv items eq_refl).
Qed.

Lemma X4_listing_must_be_an_array_witness :
  run_trace Plain.engine object_listing_world
  = prelude (Plain.example_inputs true)
    ++ [HttpGet (versions_url (Plain.example_inputs true))
          (headers_of (Plain.example_inputs true));
        SetFailed "Action failed with error: versions.find is not a function"].
Proof.
  refine (proj2 (X4_listing_must_be_an_array Plain.engine object_listing_world
                   (Plain.example_inputs true)
                   {| statusCode := Some 200%Z; readBody := inr "{}" |} "{}"
                   eq_refl eq_refl eq_refl eq_refl eq_refl)
            (JObject []) eq_refl _).
  intros items H. discriminate H.
Defined.

(** X5.  A POST that faults, while it is sent or while its answer is
    read, is never retried: after [k] rate-limited answers (at most three)
    a fault on the next POST ends the run at once with the message of the
    fault, [k + 1] POSTs sent and no output set. *)
Theorem X5_post_fault_is_fatal E W i st1 (b : nat -> string) k e :
  supplies W i ->
  proceeds E W i st1 ->
  k <= 3 ->
  (forall j, j < k -> http_post W j = answers 429 (b j)) ->
  (http_post W k = inl e \/
   exists resp, http_post W k = inr resp /\ readBody resp = inl e) ->
  run_trace E W
  = trace st1
    ++ creating i
    :: retries_from (version_url i) (JSON_stringify E (payload i) 0)
         (headers_of i) 3 0 k
    ++ [create_request E i; SetFailed (action_failed (message E e))].
Proof.
  intros Hs Hp Hk Hb Hfault.
  pose proof (proceeds_posts E W i st1 Hp) as Hposts.
  unfold run_trace. rewrite (run_supplied E W i Hs). unfold try_catch.
  rewrite run_with_start. unfold bind at 1.
  unfold proceeds in Hp. rewrite Hp, create_eq. unfold postWithRetry.
  rewrite (retry_loop_rate_limited W _ _ _ 3 b k 0 (emit (creating i) st1) Hk)
    by (intros j Hj; rewrite emit_posts, Hposts; apply Hb; exact Hj).
  rewrite retry_loop_step.
  assert (Hit : iteration W (version_url i) (JSON_stringify E (payload i) 0)
                  (headers_of i) 3 (S (0 + k))
                  {| posts := posts (emit (creating i) st1) + k;
                     trace := trace (emit (creating i) st1)
                              ++ retries_from (version_url i)
                                   (JSON_stringify E (payload i) 0)
                                   (headers_of i) 3 0 k |}
                = Return (inl e,
                          posted (version_url i)
                            (JSON_stringify E (payload i) 0) (headers_of i)
                            {| posts := posts (emit (creating i) st1) + k;
                               trace := trace (emit (creating i) st1)
                                        ++ retries_from (version_url i)
                                             (JSON_stringify E (payload i) 0)
                                             (headers_of i) 3 0 k |})).
  { destruct Hfault as [Hf | (resp & Hf & Hbody)].
    - apply iteration_fault. cbn [posts]. rewrite emit_posts, Hposts. exact Hf.
    - apply (iteration_unread _ _ _ _ _ _ _ resp); [| exact Hbody].
      cbn [posts]. rewrite emit_posts, Hposts. exact Hf. }
  rewrite Hit. unfold call, posted. cbn [snd trace].
  rewrite !emit_trace. cbn [trace]. unfold create_request.
  rewrite <- !app_assoc. reflexivity.
Qed.

Lemma X5_post_fault_is_fatal_witness :
  run_trace Plain.engine broken_world
  = prelude (Plain.example_inputs false)
    ++ [creating (Plain.example_inputs false);
        create_request Plain.engine (Plain.example_inputs false);
        Warning "Rate limit exceeded, retrying in 2000ms (1/3)";
        SetTimeout 2000;
        create_request Plain.engine (Plain.example_inputs false);
        SetFailed "Action failed with error: socket hang up"].
Proof.
  refine (X5_post_fault_is_fatal Plain.engine broken_world
            (Plain.example_inputs false) (started (Plain.example_inputs false))
            (fun _ => "slow down") 1 (Error "socket hang up")
            eq_refl eq_refl _ _ (or_introl eq_refl)).
  - apply le_S, le_S, le_n.
  - intros j Hj. destruct j as [| j]; [reflexivity |].
    exfalso. exact (Nat.nlt_0_r j (proj2 (Nat.succ_lt_mono j 0) Hj)).
Defined.

(** X8.  Whatever the final POST response, a status outside [200,300)
    (a 3xx, a 4xx, a 5xx, or 0 for a missing status) makes the run fail
    with "Version creation failed with HTTP <status>" after an error
    summary: the status line, then the body re-serialised with an
    indentation of 2 when it parses as JSON, and the raw body as it is
    when it does not.  No output is set. *)
Theorem X8_http_failure_report E W i r st :
  supplies W i ->
  final_response E W i r st ->
  ~ (200 <= status r < 300)%Z ->
  run_trace E W = trace st ++ failure_report E r /\
  filter is_output (run_trace E W) = [] /\
  In (SetFailed (http_failure (status r))) (run_trace E W) /\
  (forall m, JSON_parse E (body r) = inl m ->
             In (ErrorLog (body r)) (run_trace E W)) /\
  (forall parsed, JSON_parse E (body r) = inr parsed ->
                  In (ErrorLog (JSON_stringify E parsed 2)) (run_trace E W)).
Proof.
  intros Hs Hf Hout.
  assert (Htr : run_trace E W = trace st ++ failure_report E r).
  { unfold run_trace. rewrite (run_final E W i r st Hs Hf).
    unfold try_catch, classify. rewrite status_failure by exact Hout.
    rewrite report_failure_eq. reflexivity. }
  rewrite Htr. split; [reflexivity |]. split; [| split; [| split]].
  - rewrite filter_app, (final_response_no_output E W i r st Hf),
      failure_report_outputs. reflexivity.
  - apply in_or_app. right. apply failure_report_fails.
  - intros m Hp. apply in_or_app. right. unfold failure_report. rewrite Hp.
    cbn. tauto.
  - intros parsed Hp. apply in_or_app. right. unfold failure_report.
    rewrite Hp. cbn. tauto.
Qed.

Lemma X8_http_failure_report_witness :
  run_trace Plain.engine refusing_world
  = trace (final_state Plain.engine refusing_world (Plain.example_inputs false))
    ++ [ErrorLog "Failed to create Jira version:";
        ErrorLog "- Status: HTTP 403";
        ErrorLog "- Raw response:";
        ErrorLog refusal;
        SetFailed "Version creation failed with HTTP 403"].
Proof.
  refine (proj1 (X8_http_failure_report Plain.engine refusing_world
                   (Plain.example_inputs false)
                   {| status := 403; body := refusal |}
                   (final_state Plain.engine refusing_world
                      (Plain.example_inputs false))
                   eq_refl _ _)).
  - exists (started (Plain.example_inputs false)). split; reflexivity.
  - intros [_ H]. discriminate H.
Defined.

(** X15.  Retries compose with success: after [k] rate-limited answers
    (at most three), an answer with a status in [200,300) whose body
    parses to a value other than [null] with a showable name ends the run
    in success, with [k + 1] POSTs and the outputs taken from that last
    body. *)
Theorem X15_created_after_retries E W i st1 (b : nat -> string) k
  code text data shown :
  supplies W i ->
  proceeds E W i st1 ->
  k <= 3 ->
  (forall j, j < k -> http_post W j = answers 429 (b j)) ->
  http_post W k = answers code text ->
  (200 <= code < 300)%Z ->
  JSON_parse E text = inr data ->
  data <> JNull ->
  template E (field data "name") = inr shown ->
  run_trace E W
  = trace st1
    ++ creating i
    :: retries_from (version_url i) (JSON_stringify E (payload i) 0)
         (headers_of i) 3 0 k
    ++ [create_request E i;
        created shown;
        SetOutput "version-id" (field data "id");
        SetOutput "version-url" (field data "self")].
Proof.
  intros Hs Hp Hk Hb Hlast Hcode Hparse Hnn Hshown.
  pose proof (proceeds_posts E W i st1 Hp) as Hposts.
  assert (Hf : final_response E W i {| status := code; body := text |}
                 {| posts := posts (emit (creating i) st1) + k + 1;
                    trace := trace (emit (creating i) st1)
                             ++ retries_from (version_url i)
                                  (JSON_stringify E (payload i) 0)
                                  (headers_of i) 3 0 k
                             ++ [create_request E i] |}).
  { exists st1. split; [exact Hp |]. unfold postWithRetry.
    apply (retry_loop_then_other W (version_url i)
             (JSON_stringify E (payload i) 0) (headers_of i) 3 b k 0
             (emit (creating i) st1)
             {| statusCode := Some code; readBody := inr text |} text Hk).
    - intros j Hj. rewrite emit_posts, Hposts. apply Hb. exact Hj.
    - rewrite emit_posts, Hposts. exact Hlast.
    - reflexivity.
    - cbn. lia. }
  destruct (run_created E W i _ _ data shown Hs Hf Hcode Hparse Hnn Hshown)
    as (-> & _).
  cbn [trace]. rewrite emit_trace, <- !app_assoc. reflexivity.
Qed.

Lemma X15_created_after_retries_witness :
  run_trace Plain.engine created_world
  = prelude (Plain.example_inputs false)
    ++ [creating (Plain.example_inputs false);
        create_request Plain.engine (Plain.example_inputs false);
        Warning "Rate limit exceeded, retrying in 2000ms (1/3)";
        SetTimeout 2000;
        create_request Plain.engine (Plain.example_inputs false);
        created "v1.2.0";
        SetOutput "version-id" (Some (JString "123"));
        SetOutput "version-url" (Some (JString "https://x/y/123"))].
Proof.
  refine (X15_created_after_retries Plain.engine created_world
            (Plain.example_inputs false) (started (Plain.example_inputs false))
            (fun _ => "slow down") 1 201 version_text version_record "v1.2.0"
            eq_refl eq_refl _ _ eq_refl _ eq_refl _ eq_refl).
  - apply le_S, le_S, le_n.
  - intros j Hj. destruct j as [| j]; [reflexivity |].
    exfalso. exact (Nat.nlt_0_r j (proj2 (Nat.succ_lt_mono j 0) Hj)).
  - split; [discriminate | reflexivity].
  - discriminate.
Defined.

(** ** What a template literal can show *)

(** Induction on a JSON value, with the elements of an array and the
    members of an object as smaller values. *)
Lemma json_induction (P : json -> Prop) :
  P JNull ->
  (forall b, P (JBool b)) ->
  (forall x, P (JNumber x)) ->
  (forall s, P (JString s)) ->
  (forall items, Forall P items -> P (JArray items)) ->
  (forall members, Forall (fun m => P (snd m)) members -> P (JObject members)) ->
  forall v, P v.
Proof.
  intros Hnull Hbool Hnumber Hstring Harray Hobject.
  fix IH 1. intros [| b | x | s | items | members].
  - exact Hnull.
  - apply Hbool.
  - apply Hnumber.
  - apply Hstring.
  - apply Harray. induction items as [| x rest IHrest]; constructor.
    + apply IH.
    + exact IHrest.
  - apply Hobject. induction members as [| [k x] rest IHrest]; constructor.
    + apply IH.
    + exact IHrest.
Qed.

(** ToString succeeds exactly on the showable values, and its only
    failure is the TypeError of an object without a primitive value. *)
Lemma ToString_showable E v :
  match ToString E v with
  | inr _ => showable v = true
  | inl e => showable v = false /\ e = TypeError NoPrimitive
  end.
Proof.
  induction v as [| b | x | s | items Hitems | members _] using json_induction;
    try reflexivity.
  - destruct b; reflexivity.
  - induction Hitems as [| x rest Hx Hrest IH]; [reflexivity |].
    assert (Helement :
              match (match x with JNull => inr ""%string | _ => ToString E x end)
              with
              | inr _ => showable x = true
              | inl e => showable x = false /\ e = TypeError NoPrimitive
              end).
    { destruct x; exact Hx. }
    change (showable (JArray (x :: rest)))
      with (showable x && showable (JArray rest)).
    destruct rest as [| y rest'].
    + change (ToString E (JArray [x]))
        with (match x with JNull => inr ""%string | _ => ToString E x end).
      rewrite andb_true_r. exact Helement.
    + change (ToString E (JArray (x :: y :: rest')))
        with (match (match x with JNull => inr ""%string | _ => ToString E x end)
              with
              | inl e => inl e
              | inr s =>
                  match ToString E (JArray (y :: rest')) with
                  | inl e => inl e
                  | inr t => inr (s ++ "," ++ t)%string
                  end
              end).
      destruct (match x with JNull => inr ""%string | _ => ToString E x end)
        as [e | s].
      * destruct Helement as [-> ->]. split; reflexivity.
      * rewrite Helement.
        destruct (ToString E (JArray (y :: rest'))) as [e | t].
        -- destruct IH as [-> ->]. split; reflexivity.
        -- rewrite IH. reflexivity.
  - cbn. destruct (own_property "toString" members); [split |]; reflexivity.
Qed.

Lemma template_showable E x :
  match template E x with
  | inr _ => showable_value x = true
  | inl e => showable_value x = false /\ e = TypeError NoPrimitive
  end.
Proof.
  destruct x as [v |]; [apply ToString_showable | reflexivity].
Qed.

(** X12.  When the final POST response has a status in [200,300), the
    run succeeds if and only if the body parses as JSON, the parsed value
    is not [null], and its [name], if it has one, is showable: neither an
    object with a member called [toString] nor an array that holds one. *)
Theorem X12_success_criterion E W i r st :
  supplies W i ->
  final_response E W i r st ->
  (200 <= status r < 300)%Z ->
  succeeded (run_trace E W) = true <->
  exists data,
    JSON_parse E (body r) = inr data /\
    data <> JNull /\
    showable_value (field data "name") = true.
Proof.
  intros Hs Hf Hst.
  pose proof (final_response_not_failed E W i r st Hf) as Hnf.
  assert (Htr : run_trace E W
                = trace (snd (try_catch (classify E r) (on_error E) st))).
  { unfold run_trace. rewrite (run_final E W i r st Hs Hf). reflexivity. }
  rewrite Htr. unfold succeeded.
  destruct (classify_cases E r st)
    as [[Hout _] | [_ [(m & Hp & ->) | [(d & e & Hp & Hbad & ->)
                                       | (d & shown & Hp & Hnn & Hshown & ->)]]]].
  - contradiction.
  - rewrite failed_app, Hnf. cbn. split; [discriminate |].
    intros (data & Hp' & _). congruence.
  - rewrite failed_app, Hnf. cbn. split; [discriminate |].
    intros (data & Hp' & Hnn & Hshow).
    assert (data = d) by congruence. subst data.
    destruct Hbad as [-> | Hthrown]; [contradiction Hnn; reflexivity |].
    pose proof (template_showable E (field d "name")) as Ht.
    rewrite Hthrown in Ht. destruct Ht as [Ht _]. congruence.
  - rewrite failed_app, Hnf. cbn. split; [| reflexivity].
    intros _. exists d. split; [exact Hp |]. split; [exact Hnn |].
    pose proof (template_showable E (field d "name")) as Ht.
    rewrite Hshown in Ht. exact Ht.
Qed.

Lemma X12_success_criterion_witness :
  succeeded (run_trace Plain.engine odd_name_world) = true <->
  exists data,
    JSON_parse Plain.engine odd_name_text = inr data /\
    data <> JNull /\
    showable_value (field data "name") = true.
Proof.
  refine (X12_success_criterion Plain.engine odd_name_world
            (Plain.example_inputs false) (success odd_name_text)
            (final_state Plain.engine odd_name_world (Plain.example_inputs false))
            eq_refl _ _).
  - exists (started (Plain.example_inputs false)). split; reflexivity.
  - split; [discriminate | reflexivity].
Defined.

(** ** Reading the inputs, in order *)

(** X11.  The inputs are read in the order of the source, before anything
    else happens.  When a getter throws, the run consists of one call,
    [core.setFailed] with the message of the first getter that threw: no
    secret is registered, nothing is logged and no request is sent.  When
    none throws, the run has its inputs and starts with the registration
    of the two secrets. *)
Theorem X11_inputs_first E W :
  match first_error (input_errors W) with
  | Some e => run_trace E W = [SetFailed (action_failed (message E e))]
  | None =>
      exists i rest,
        supplies W i /\
        run_trace E W
        = SetSecret (jiraApiToken i) :: SetSecret (jiraUserEmail i) :: rest
  end.
Proof.
  assert (H : match first_error (input_errors W) with
              | Some e => fst (read_inputs W initial) = inl e
              | None => exists i, supplies W i
              end).
  { unfold input_errors, supplies, read_inputs, bind, core_getInput,
      core_getBooleanInput, lift, ret.
    destruct (getInput W "jira-base-url" true); [reflexivity |].
    destruct (getInput W "jira-project-key" true); [reflexivity |].
    destruct (getInput W "jira-user-email" true); [reflexivity |].
    destruct (getInput W "jira-api-token" true); [reflexivity |].
    destruct (getInput W "version-name" true); [reflexivity |].
    destruct (getInput W "version-description" false); [reflexivity |].
    destruct (getBooleanInput W "released" false); [reflexivity |].
    destruct (getBooleanInput W "check-if-exists" false); [reflexivity |].
    cbn. eexists. reflexivity. }
  destruct (first_error (input_errors W)) as [e |].
  - apply run_unsupplied. exact H.
  - destruct H as (i & Hs).
    destruct (run_starts_with_prelude E W i Hs) as (rest & Hr).
    exists i. eexists. split; [exact Hs |]. rewrite Hr. reflexivity.
Qed.

(** ** What [findVersion] returns *)

Lemma Array_find_in name items v :
  Array_find (name_is name) items = inr (Some v) -> In v items.
Proof.
  induction items as [| w items IH]; cbn; [discriminate |].
  destruct (name_is name w) as [e | [|]]; try discriminate.
  - intros [= <-]. left. reflexivity.
  - intros H. right. apply IH. exact H.
Qed.

Lemma Array_find_miss name items :
  Array_find (name_is name) items = inr None ->
  forall v, In v items -> v <> JNull /\ named name v = false.
Proof.
  induction items as [| w items IH]; cbn; [intros _ v [] |].
  destruct (name_is name w) as [e | [|]] eqn:Hw; try discriminate.
  intros H v [<- | Hin]; [| apply IH; assumption].
  unfold name_is in Hw. destruct w; cbn in *; try discriminate;
    (split; [discriminate | congruence]).
Qed.

(** X14.  [findVersion] sends exactly one GET and nothing else, and what
    it returns is sound: a record it returns is an element of the array
    that a 200 answer parsed to and has exactly the requested name, and
    when it returns [null] that array holds no [null] and no element with
    the requested name. *)
Theorem X14_findVersion_sound E W baseUrl projectKey name h st :
  snd (findVersion E W baseUrl projectKey name h st)
  = emit (HttpGet (baseUrl ++ "/rest/api/3/project/" ++ projectKey
                   ++ "/versions")%string h) st /\
  forall found,
    fst (findVersion E W baseUrl projectKey name h st) = inr found ->
    exists resp text items,
      http_get W = inr resp /\
      readBody resp = inr text /\
      status_of resp = 200%Z /\
      JSON_parse E text = inr (JArray items) /\
      match found with
      | Some v => In v items /\ named name v = true
      | None => forall v, In v items -> v <> JNull /\ named name v = false
      end.
Proof.
  split; [rewrite findVersion_state; reflexivity |].
  intros found.
  unfold findVersion, getProjectVersions, bind, client_get, lift, throw, ret,
    JSON_parse_.
  destruct (http_get W) as [e | resp] eqn:Hg; [discriminate |].
  destruct (readBody resp) as [e | text] eqn:Hb; [discriminate |].
  destruct (Z.eqb_spec (status_of resp) 200) as [Hst | Hst]; [| discriminate].
  cbn [negb].
  destruct (JSON_parse E text) as [m | versions] eqn:Hp; [discriminate |].
  destruct versions as [| | | | items |]; try discriminate.
  cbn [find fst].
  change (fun v : json =>
            match get v "name" with
            | inl e => inl e
            | inr x => inr (strict_eq_string x name)
            end) with (name_is name).
  destruct (Array_find (name_is name) items) as [e | [v |]] eqn:Hfind;
    cbn [fst]; [discriminate | |].
  - pose proof (Array_find_some name items v Hfind) as Hn.
    cbn [or_null]. rewrite (named_truthy name v Hn).
    intros [= <-]. exists resp, text, items.
    repeat split; try assumption; try reflexivity.
    eapply Array_find_in. exact Hfind.
  - intros [= <-]. exists resp, text, items.
    split; [reflexivity |]. split; [exact Hb |]. split; [exact Hst |].
    split; [exact Hp |]. apply (Array_find_miss name items Hfind).
Qed.

(** ** Credentials: what the program itself keeps out of its log *)

Lemma outputs_public tr :
  filter is_output (public_trace tr) = filter is_output tr.
Proof.
  induction tr as [| e tr IH]; [reflexivity |].
  destruct e; cbn; rewrite ?IH; reflexivity.
Qed.

Lemma secrets_retries_from url data h maxRetries k :
  forall attempt,
    filter is_secret (retries_from url data h maxRetries attempt k) = [].
Proof.
  induction k as [| k IH]; intros attempt; [reflexivity |].
  cbn. apply IH.
Qed.

Lemma ending_secrets E tail : ending E tail -> filter is_secret tail = [].
Proof.
  intros [text | r Hout | shown x y]; try reflexivity.
  unfold failure_report. rewrite !filter_app.
  destruct (JSON_parse E (body r)); reflexivity.
Qed.

(** A run that got its inputs registers the token, then the email, and
    no other secret, before anything else. *)
Lemma anatomy_secrets E W tr i :
  anatomy E W tr ->
  supplies W i ->
  exists rest,
    tr = SetSecret (jiraApiToken i) :: SetSecret (jiraUserEmail i) :: rest /\
    filter is_secret rest = [].
Proof.
  intros Ha Hs.
  destruct Ha as [text Hno | i0 text Hs0 Hc | i0 x y Hs0 Hc
                 | i0 k tail Hs0 Hk Hend];
    try (pose proof (supplies_unique W i i0 Hs Hs0) as <-).
  - destruct (Hno i Hs).
  - eexists. split; reflexivity.
  - eexists. split; reflexivity.
  - eexists. split; [reflexivity |].
    cbn [filter is_secret]. rewrite filter_app.
    replace (filter is_secret (lookup_request i)) with (@nil event)
      by (unfold lookup_request; destruct (checkIfExists i); reflexivity).
    cbn [app filter creating is_secret]. rewrite filter_app.
    rewrite secrets_retries_from. cbn [app filter create_request is_secret].
    apply (ending_secrets E tail Hend).
Qed.

(** C8, as the code has it.  The program itself builds no logged text
    and no output from the credentials: two runs whose inputs differ only
    in the values of the user email and of the API token, against a
    network that answers alike, log the same texts, set the same outputs
    and send the same requests, and differ only in the secrets they
    register and in the value of the Authorization header.  A run that has
    read all its inputs registers the token and the email with
    [core.setSecret], and nothing else, before any other call; a run in
    which a getter throws consists of the one failure message made from
    that getter's error. *)
Theorem C8_log_independent_of_credentials E W1 W2 :
  same_but_credentials W1 W2 ->
  same_answers W1 W2 ->
  public_trace (run_trace E W1) = public_trace (run_trace E W2) /\
  log_of (run_trace E W1) = log_of (run_trace E W2) /\
  filter is_output (run_trace E W1) = filter is_output (run_trace E W2) /\
  match fst (read_inputs W1 initial) with
  | inr i =>
      exists rest,
        run_trace E W1
        = SetSecret (jiraApiToken i) :: SetSecret (jiraUserEmail i) :: rest /\
        filter is_secret rest = []
  | inl e => run_trace E W1 = [SetFailed (action_failed (message E e))]
  end.
Proof.
  intros Hin HW.
  assert (Hpub : public_trace (run_trace E W1) = public_trace (run_trace E W2)).
  { pose proof (read_inputs_agree W1 W2 Hin) as Hr.
    destruct (fst (read_inputs W1 initial)) as [e1 | i1] eqn:H1,
             (fst (read_inputs W2 initial)) as [e2 | i2] eqn:H2;
      try contradiction.
    - subst e2. rewrite (run_unsupplied E W1 e1 H1), (run_unsupplied E W2 e1 H2).
      reflexivity.
    - destruct Hr as (Hb & Hk & Hn & Hd & Hrel & Hc).
      assert (Hs1 : supplies W1 i1).
      { unfold supplies. rewrite read_inputs_state, H1. reflexivity. }
      assert (Hs2 : supplies W2 i2).
      { unfold supplies. rewrite read_inputs_state, H2. reflexivity. }
      unfold run_trace.
      rewrite (run_supplied E W1 i1 Hs1), (run_supplied E W2 i2 Hs2).
      apply (agree_try_catch (run_with E W1 i1) (run_with E W2 i2)
               (on_error E) (on_error E)).
      + apply agree_run_with; assumption.
      + intros e. apply agree_call. reflexivity.
      + split; reflexivity. }
  split; [exact Hpub |]. split; [| split].
  - rewrite <- (log_of_public (run_trace E W1)), Hpub. apply log_of_public.
  - rewrite <- (outputs_public (run_trace E W1)), Hpub. apply outputs_public.
  - destruct (fst (read_inputs W1 initial)) as [e | i] eqn:Hread.
    + apply run_unsupplied. exact Hread.
    + apply (anatomy_secrets E W1 (run_trace E W1) i (run_anatomy E W1)).
      unfold supplies. rewrite read_inputs_state, Hread. reflexivity.
Qed.

Lemma C8_log_independent_of_credentials_witness :
  public_trace (run_trace Plain.engine created_world)
  = public_trace (run_trace Plain.engine other_created_world) /\
  log_of (run_trace Plain.engine created_world)
  = log_of (run_trace Plain.engine other_created_world).
Proof.
  refine ((fun H => conj (proj1 H) (proj1 (proj2 H)))
            (C8_log_independent_of_credentials Plain.engine
               created_world other_created_world _ _)).
  - split; [| split].
    + intros name required Hemail Htoken. cbn. f_equal.
      destruct (String.eqb name "jira-base-url"); [reflexivity |].
      destruct (String.eqb name "jira-project-key"); [reflexivity |].
      destruct (String.eqb_spec name "jira-user-email"); [contradiction |].
      destruct (String.eqb_spec name "jira-api-token"); [contradiction |].
      reflexivity.
    + intros name required. right. eexists. eexists. split; reflexivity.
    + intros name required. reflexivity.
  - split; [reflexivity |]. intros n. reflexivity.
Defined.

(** C8 as stated fails: the server's refusal names the user, its body is
    no JSON, and the run hands that body to [core.error] as it is; the
    email address occurs in a logged text. *)
Lemma C8_credentials_counterexample :
  supplies refusing_world (Plain.example_inputs false) /\
  jiraUserEmail (Plain.example_inputs false) = "bob@example.com" /\
  http_post refusing_world 0 = answers 403 refusal /\
  In (ErrorLog refusal) (run_trace Plain.engine refusing_world) /\
  logged (ErrorLog refusal) = Some refusal /\
  occurs (jiraUserEmail (Plain.example_inputs false)) refusal = true.
Proof.
  repeat split. apply (nth_error_In _ 9). reflexivity.
Qed.
